(** * CatCloudBackup: a shallow embedding of [main.py]

    The program downloads a captioned cat picture and uploads it to a cloud
    disk through a REST API.  Everything it does is an HTTP call, a clock
    read, a sleep, a print or a file write, so the embedding is a small
    state-and-exception monad over an event trace.  The outside world (the
    two HTTP services, the clock, the process environment, the console and
    the file system) is a record of oracles that answer from the history of
    events so far.

    Modelling conventions:
    - a Python [bytes] is a [string] (a sequence of 8-bit code units), and a
      Python [str] is held as the [string] of its UTF-8 encoding; a
      character that begins or ends a [str] is one whose UTF-8 sequence
      begins or ends that string, since no UTF-8 sequence is part of
      another; the one [str] that is cut by characters, [Response.text], is
      held as the list of its code points;
    - the texts of the interpreter's own exceptions are those of CPython
      3.11;
    - a Python [int] is a [Z];
    - a decoded JSON body is a [json] value whose numbers are integers;
    - [requests] raises only subclasses of [RequestException] for a
      transport failure, and its [Response.json] raises
      [requests.exceptions.JSONDecodeError] on a body that is not JSON;
    - [input] always returns a line, and [print] and [time.sleep] never
      raise. *)

From Stdlib Require Import ZArith List String Ascii Bool Lia DecimalString.
From Stdlib Require DecimalNat DecimalFacts.
Import ListNotations.
Open Scope string_scope.
Open Scope Z_scope.
Set Warnings "-register-all,-abstract-large-number".

(* ================================================================== *)
(** ** Python values *)

Inductive json : Type :=
| JNull
| JBool (b : bool)
| JInt (n : Z)
| JStr (s : string)
| JArr (items : list json)
| JObj (fields : list (string * json)).

(** Lookup of a key in a [dict], kept as an association list in insertion
    order. *)
Fixpoint dict_lookup (key : string) (fields : list (string * json)) : option json :=
  match fields with
  | [] => None
  | (k, v) :: rest => if String.eqb k key then Some v else dict_lookup key rest
  end.

(** Python truth value of a JSON value ([if operation_url:]). *)
Definition truthy (v : json) : bool :=
  match v with
  | JNull => false
  | JBool b => b
  | JInt n => negb (n =? 0)
  | JStr s => negb (String.eqb s "")
  | JArr items => match items with [] => false | _ => true end
  | JObj fields => match fields with [] => false | _ => true end
  end.

(** [type(v).__name__]. *)
Definition type_name (v : json) : string :=
  match v with
  | JNull => "NoneType"
  | JBool _ => "bool"
  | JInt _ => "int"
  | JStr _ => "str"
  | JArr _ => "list"
  | JObj _ => "dict"
  end.

(** [v == "literal"] for a JSON value [v]. *)
Definition eq_str (v : json) (lit : string) : bool :=
  match v with
  | JStr s => String.eqb s lit
  | _ => false
  end.

Definition string_of_Z (n : Z) : string := NilEmpty.string_of_int (Z.to_int n).
Definition string_of_nat (n : nat) : string := NilEmpty.string_of_uint (Nat.to_uint n).

Definition len (s : string) : Z := Z.of_nat (String.length s).

(** [b[:-n]] for a [bytes] or an ASCII [str]. *)
Definition drop_last (n : nat) (s : string) : string :=
  String.substring 0 (String.length s - n) s.

(** ["".join(cs)]. *)
Fixpoint join (cs : list string) : string :=
  match cs with
  | [] => EmptyString
  | c :: rest => c ++ join rest
  end.

Definition bytes (codes : list Z) : string :=
  string_of_list_ascii (map (fun c => ascii_of_N (Z.to_N c)) codes).

(** The UTF-8 encoding of a code point, and of a [str] given by its code
    points. *)
Definition utf8_encode (n : Z) : string :=
  bytes (if n <? 128 then [n]
         else if n <? 2048 then [192 + n / 64; 128 + n mod 64]
         else if n <? 65536 then
           [224 + n / 4096; 128 + (n / 64) mod 64; 128 + n mod 64]
         else
           [240 + n / 262144; 128 + (n / 4096) mod 64; 128 + (n / 64) mod 64;
            128 + n mod 64]).

Definition utf8 (points : list Z) : string := join (map utf8_encode points).

(** The characters for which [str.isspace] holds, in UTF-8: U+0009 to
    U+000D, U+001C to U+0020, U+0085, U+00A0, U+1680, U+2000 to U+200A,
    U+2028, U+2029, U+202F, U+205F and U+3000. *)
Definition WHITESPACE : list string :=
  map bytes
    [[9]; [10]; [11]; [12]; [13]; [28]; [29]; [30]; [31]; [32];
     [194; 133]; [194; 160]; [225; 154; 128];
     [226; 128; 128]; [226; 128; 129]; [226; 128; 130]; [226; 128; 131];
     [226; 128; 132]; [226; 128; 133]; [226; 128; 134]; [226; 128; 135];
     [226; 128; 136]; [226; 128; 137]; [226; 128; 138];
     [226; 128; 168]; [226; 128; 169]; [226; 128; 175];
     [226; 129; 159]; [227; 128; 128]].

(** [c.isspace()] for one character, given in UTF-8. *)
Definition is_space (c : string) : bool := existsb (String.eqb c) WHITESPACE.

(** [s.lstrip()]: while the first one, two or three bytes are a white-space
    character, they are dropped. *)
Fixpoint lstrip (s : string) : string :=
  match s with
  | EmptyString => EmptyString
  | String a rest =>
      if is_space (String a EmptyString) then lstrip rest
      else
        match rest with
        | EmptyString => s
        | String b rest' =>
            if is_space (String a (String b EmptyString)) then lstrip rest'
            else
              match rest' with
              | EmptyString => s
              | String c rest'' =>
                  if is_space (String a (String b (String c EmptyString)))
                  then lstrip rest''
                  else s
              end
        end
  end.

(** [s.rstrip()]: what is kept of [a :: rest] is [a] and what is kept of
    [rest], unless that is one white-space character. *)
Fixpoint rstrip (s : string) : string :=
  match s with
  | EmptyString => EmptyString
  | String a rest =>
      let kept := String a (rstrip rest) in
      if is_space kept then EmptyString else kept
  end.

(** [s.strip()]: the white space at both ends is removed. *)
Definition strip (s : string) : string := rstrip (lstrip s).

(** [s.replace(old, new)] for a one-character [old]. *)
Fixpoint replace (old : ascii) (new : string) (s : string) : string :=
  match s with
  | EmptyString => EmptyString
  | String c rest =>
      if Ascii.eqb c old then new ++ replace old new rest
      else String c (replace old new rest)
  end.

(* ================================================================== *)
(** ** datetime *)

Record datetime : Type := mkDatetime {
  year : nat; month : nat; day : nat;
  hour : nat; minute : nat; second : nat;
  microsecond : nat
}.

Fixpoint zeros (n : nat) : string :=
  match n with
  | O => EmptyString
  | S k => String "0" (zeros k)
  end.

(** A number in decimal, padded with zeros on the left to [width]. *)
Definition pad (width n : nat) : string :=
  let digits := string_of_nat n in
  zeros (width - String.length digits) ++ digits.

(** [d.strftime("%Y%m%d_%H%M%S_%f")]. *)
Definition strftime_stamp (d : datetime) : string :=
  pad 4 (year d) ++ pad 2 (month d) ++ pad 2 (day d) ++ "_" ++
  pad 2 (hour d) ++ pad 2 (minute d) ++ pad 2 (second d) ++ "_" ++
  pad 6 (microsecond d).

(** [d.isoformat()]: the fraction is left out when it is zero. *)
Definition isoformat (d : datetime) : string :=
  pad 4 (year d) ++ "-" ++ pad 2 (month d) ++ "-" ++ pad 2 (day d) ++ "T" ++
  pad 2 (hour d) ++ ":" ++ pad 2 (minute d) ++ ":" ++ pad 2 (second d) ++
  (if Nat.eqb (microsecond d) 0 then "" else "." ++ pad 6 (microsecond d)).

(* ================================================================== *)
(** ** HTTP, exceptions and events *)

Inductive http_method : Type := GET | PUT.

Record request : Type := mkRequest {
  req_method : http_method;
  req_url : json;                        (* a [str] in every well-behaved run *)
  req_headers : list (string * string);
  req_params : list (string * string);
  req_data : option string;
  req_timeout : Z
}.

Record response : Type := mkResponse {
  status_code : Z;
  reason : string;
  url : string;
  content : string;                      (* the body, as bytes *)
  text : list Z;                         (* [r.text]: the code points of the body *)
  body : option json;                    (* [None]: the body is not JSON *)
  decode_error : string                  (* [str] of the error of [r.json()] then *)
}.

Inductive exn_class : Type :=
| RequestException | Timeout | HTTPError | ConnectionError | JSONDecodeError
| AttributeError | KeyError | TypeError | ValueError | OSError | Exception.

Record exn : Type := mkExn {
  exn_class_of : exn_class;
  exn_str : string;                      (* [str(e)] *)
  exn_response : option response         (* [e.response] *)
}.

(** [issubclass(c, d)] for the classes above. *)
Definition issubclass (c d : exn_class) : bool :=
  match d, c with
  | Exception, _ => true
  | OSError, (OSError | RequestException | Timeout | HTTPError | ConnectionError
              | JSONDecodeError) => true
  | RequestException, (RequestException | Timeout | HTTPError | ConnectionError
                       | JSONDecodeError) => true
  | ValueError, (ValueError | JSONDecodeError) => true
  | Timeout, Timeout => true
  | HTTPError, HTTPError => true
  | ConnectionError, ConnectionError => true
  | JSONDecodeError, JSONDecodeError => true
  | AttributeError, AttributeError => true
  | KeyError, KeyError => true
  | TypeError, TypeError => true
  | _, _ => false
  end.

Definition isinstance (e : exn) (c : exn_class) : bool := issubclass (exn_class_of e) c.

(** How a request can fail before any response arrives. *)
Inductive net_failure : Type := NetTimeout | NetConnection | NetOther.

Definition class_of_failure (f : net_failure) : exn_class :=
  match f with
  | NetTimeout => Timeout
  | NetConnection => ConnectionError
  | NetOther => RequestException
  end.

Inductive http_outcome : Type :=
| Failed (f : net_failure) (msg : string)
| Responded (r : response).

Inductive event : Type :=
| EvHttp (req : request) (out : http_outcome)
| EvSleep (seconds : Z)
| EvPrint (line : string)
| EvGetenv (name : string)
| EvInput (prompt : string)
| EvNow
| EvWriteJson (filename : string) (doc : json) (err : option string).

(** The outside world.  Every oracle sees the events so far, so a service
    may answer the same request differently each time. *)
Record World : Type := mkWorld {
  http_reply : list event -> request -> http_outcome;
  clock : list event -> datetime;
  environ : string -> option string;
  stdin_line : list event -> string;
  fs_error : list event -> string -> option string;
  repr : json -> string                  (* [str] of a list or a dict *)
}.

(** [str(v)], as an f-string formats a value. *)
Definition py_str (W : World) (v : json) : string :=
  match v with
  | JStr s => s
  | JInt n => string_of_Z n
  | JBool true => "True"
  | JBool false => "False"
  | JNull => "None"
  | JArr _ | JObj _ => repr W v
  end.

(* ================================================================== *)
(** ** The monad: object state, event trace, exceptions *)

Inductive outcome (A : Type) : Type :=
| Ok (a : A)
| Raised (e : exn).
Arguments Ok {A} a.
Arguments Raised {A} e.

Record store (S : Type) : Type := mkStore { obj : S; trace : list event }.
Arguments mkStore {S} obj trace.
Arguments obj {S} s.
Arguments trace {S} s.

Definition M (S A : Type) : Type := store S -> outcome A * store S.

Definition ret {S A} (a : A) : M S A := fun st => (Ok a, st).

Definition bind {S A B} (m : M S A) (k : A -> M S B) : M S B :=
  fun st =>
    match m st with
    | (Ok a, st') => k a st'
    | (Raised e, st') => (Raised e, st')
    end.

Definition raise {S A} (e : exn) : M S A := fun st => (Raised e, st).

(** [try: m  except ...: handler e]; a handler re-raises what it does not
    catch. *)
Definition try_except {S A} (m : M S A) (handler : exn -> M S A) : M S A :=
  fun st =>
    match m st with
    | (Ok a, st') => (Ok a, st')
    | (Raised e, st') => handler e st'
    end.

Definition emit {S} (e : event) : M S unit :=
  fun st => (Ok tt, mkStore (obj st) (trace st ++ [e])).

Definition history {S} : M S (list event) := fun st => (Ok (trace st), st).

Definition get_self {S} : M S S := fun st => (Ok (obj st), st).

Definition set_self {S} (s : S) : M S unit := fun st => (Ok tt, mkStore s (trace st)).

(** Run [m] on a freshly built object that the caller keeps in a local
    variable. *)
Definition with_object {S T A} (o : T) (m : M T A) : M S A :=
  fun st =>
    let '(r, st') := m (mkStore o (trace st)) in
    (r, mkStore (obj st) (trace st')).

Declare Scope monad_scope.
Delimit Scope monad_scope with monad.
Notation "x <- m ;; k" := (bind m (fun x => k))
  (at level 100, m at next level, right associativity) : monad_scope.
Notation "m ;; k" := (bind m (fun _ => k))
  (at level 100, right associativity) : monad_scope.
Open Scope monad_scope.

Definition new_exn (c : exn_class) (msg : string) : exn := mkExn c msg None.

(* ================================================================== *)
(** ** Primitive effects *)

Section Program.

Variable W : World.

(** [requests.get] / [requests.put]: the world answers, the exchange is
    logged, a transport failure is raised. *)
Definition send {S} (req : request) : M S response :=
  h <- history ;;
  let out := http_reply W h req in
  emit (EvHttp req out) ;;
  match out with
  | Responded r => ret r
  | Failed f msg => raise (new_exn (class_of_failure f) msg)
  end.

Definition requests_get {S} (u : json) (headers params : list (string * string))
    (timeout : Z) : M S response :=
  send (mkRequest GET u headers params None timeout).

Definition requests_put {S} (u : json) (headers params : list (string * string))
    (data : option string) (timeout : Z) : M S response :=
  send (mkRequest PUT u headers params data timeout).

(** [Response.raise_for_status]. *)
Definition raise_for_status {S} (r : response) : M S unit :=
  if (400 <=? status_code r) && (status_code r <? 500) then
    raise (mkExn HTTPError
             (string_of_Z (status_code r) ++ " Client Error: " ++ reason r
                ++ " for url: " ++ url r) (Some r))
  else if (500 <=? status_code r) && (status_code r <? 600) then
    raise (mkExn HTTPError
             (string_of_Z (status_code r) ++ " Server Error: " ++ reason r
                ++ " for url: " ++ url r) (Some r))
  else ret tt.

(** [Response.json]. *)
Definition response_json {S} (r : response) : M S json :=
  match body r with
  | Some v => ret v
  | None => raise (new_exn JSONDecodeError (decode_error r))
  end.

(** [v.get(key, default)]: only a dict has the method. *)
Definition py_get {S} (v : json) (key : string) (default : json) : M S json :=
  match v with
  | JObj fields =>
      ret (match dict_lookup key fields with Some x => x | None => default end)
  | _ => raise (new_exn AttributeError
                  ("'" ++ type_name v ++ "' object has no attribute 'get'"))
  end.

(** [v[key]] for a string key. *)
Definition py_getitem {S} (v : json) (key : string) : M S json :=
  match v with
  | JObj fields =>
      match dict_lookup key fields with
      | Some x => ret x
      | None => raise (new_exn KeyError ("'" ++ key ++ "'"))
      end
  | JArr _ => raise (new_exn TypeError "list indices must be integers or slices, not str")
  | JStr _ => raise (new_exn TypeError "string indices must be integers, not 'str'")
  | _ => raise (new_exn TypeError ("'" ++ type_name v ++ "' object is not subscriptable"))
  end.

(** ["literal" in v]. *)
Definition py_contains {S} (lit : string) (v : json) : M S bool :=
  match v with
  | JObj fields => ret (match dict_lookup lit fields with Some _ => true | None => false end)
  | JArr items => ret (existsb (fun x => eq_str x lit) items)
  | JStr s => ret (match String.index 0 lit s with Some _ => true | None => false end)
  | _ => raise (new_exn TypeError
                  ("argument of type '" ++ type_name v ++ "' is not iterable"))
  end.

Definition print {S} (line : string) : M S unit := emit (EvPrint line).

Definition time_sleep {S} (seconds : Z) : M S unit := emit (EvSleep seconds).

Definition datetime_now {S} : M S datetime :=
  h <- history ;;
  emit EvNow ;;
  ret (clock W h).

Definition os_getenv {S} (name : string) : M S (option string) :=
  emit (EvGetenv name) ;;
  ret (environ W name).

Definition input {S} (prompt : string) : M S string :=
  h <- history ;;
  emit (EvInput prompt) ;;
  ret (stdin_line W h).

(** [with open(filename, "w") as f: json.dump(doc, f, ...)]. *)
Definition dump_to_file {S} (filename : string) (doc : json) : M S unit :=
  h <- history ;;
  let err := fs_error W h filename in
  emit (EvWriteJson filename doc err) ;;
  match err with
  | None => ret tt
  | Some msg => raise (new_exn OSError msg)
  end.

(** [acc + v] for an integer [acc]: a [bool] counts as 0 or 1, anything
    else but a number is a [TypeError]. *)
Definition py_add {S} (acc : Z) (v : json) : M S Z :=
  match v with
  | JInt n => ret (acc + n)
  | JBool b => ret (acc + (if b then 1 else 0))
  | _ => raise (new_exn TypeError
                  ("unsupported operand type(s) for +: 'int' and '" ++ type_name v ++ "'"))
  end.

(** [sum(x[key] for x in xs)], continued from the partial sum [acc]: the
    generator is consumed one element at a time. *)
Fixpoint sum_of_items {S} (key : string) (acc : Z) (xs : list json) : M S Z :=
  match xs with
  | [] => ret acc
  | x :: rest =>
      v <- py_getitem x key ;;
      acc' <- py_add acc v ;;
      sum_of_items key acc' rest
  end.

End Program.

(* ================================================================== *)
(** ** class CatCloudBackup *)

Record CatCloudBackup : Type := mkCatCloudBackup {
  _yandex_token : string;
  _group_name : string;
  _uploaded_files_info : list json
}.

Definition YANDEX_API_BASE_URL : string := "https://cloud-api.yandex.net/v1/disk".
Definition CAT_API_BASE_URL : string := "https://cataas.com/cat/says".
Definition REQUEST_TIMEOUT : Z := 30.

Definition __init__ (yandex_token group_name : string) : CatCloudBackup :=
  mkCatCloudBackup yandex_token group_name [].

(** The characters [_generate_filename] replaces: the space, the slash,
    the backslash (code 92), the colon, the star, the question mark, the
    double quote (code 34), the angle brackets and the bar. *)
Definition forbidden_chars : list ascii :=
  [" "; "/"; "092"; ":"; "*"; "?"; "034"; "<"; ">"; "|"]%char.

(** [range(n)]. *)
Definition range (n : Z) : list Z := map Z.of_nat (seq 0 (Z.to_nat n)).

(** What one turn of the poll loop decides: [return], or go on to the next
    attempt with the current [delay_seconds]. *)
Inductive loop_step : Type :=
| LoopReturn
| LoopContinue (delay_seconds : Z).

Section Methods.

Variable W : World.

Definition _get_authorization_headers : M CatCloudBackup (list (string * string)) :=
  self <- get_self ;;
  ret [("Authorization", "OAuth " ++ _yandex_token self)].

Definition _download_cat_image (text : string) : M CatCloudBackup string :=
  let url := CAT_API_BASE_URL ++ "/" ++ text in
  try_except
    (response <- requests_get W (JStr url) [] [] REQUEST_TIMEOUT ;;
     raise_for_status response ;;
     ret (content response))
    (fun e =>
       if isinstance e Timeout then
         raise (new_exn RequestException ("Таймаут при загрузке изображения с " ++ url))
       else if isinstance e RequestException then
         raise (new_exn RequestException ("Ошибка при загрузке изображения: " ++ exn_str e))
       else raise e).

Definition _create_remote_directory (directory_path : string) : M CatCloudBackup unit :=
  headers <- _get_authorization_headers ;;
  let url := YANDEX_API_BASE_URL ++ "/resources" in
  let params := [("path", directory_path)] in
  try_except
    (response <- requests_put W (JStr url) headers params None REQUEST_TIMEOUT ;;
     if status_code response =? 409 then ret tt
     else raise_for_status response)
    (fun e =>
       if isinstance e RequestException then
         raise (new_exn RequestException
                  ("Ошибка при создании папки " ++ directory_path ++ ": " ++ exn_str e))
       else raise e).

Definition _generate_filename (text : string) : M CatCloudBackup string :=
  let filename := fold_left (fun name char => replace char "_" name) forbidden_chars text in
  now <- datetime_now W ;;
  let timestamp := drop_last 3 (strftime_stamp now) in
  ret (filename ++ "_" ++ timestamp ++ ".jpg").

Definition _get_upload_url (remote_path : string) : M CatCloudBackup json :=
  headers <- _get_authorization_headers ;;
  let url := YANDEX_API_BASE_URL ++ "/resources/upload" in
  let params := [("path", remote_path); ("overwrite", "true")] in
  try_except
    (response <- requests_get W (JStr url) headers params REQUEST_TIMEOUT ;;
     raise_for_status response ;;
     decoded <- response_json response ;;
     py_getitem decoded "href")
    (fun e =>
       if isinstance e RequestException then
         raise (new_exn RequestException
                  ("Ошибка при получении URL для загрузки: " ++ exn_str e))
       else raise e).

Definition _get_file_metadata (remote_path : string) : M CatCloudBackup json :=
  headers <- _get_authorization_headers ;;
  let url := YANDEX_API_BASE_URL ++ "/resources" in
  let params := [("path", remote_path)] in
  try_except
    (response <- requests_get W (JStr url) headers params REQUEST_TIMEOUT ;;
     raise_for_status response ;;
     response_json response)
    (fun e =>
       if isinstance e RequestException then
         raise (new_exn RequestException
                  ("Ошибка при получении метаданных файла: " ++ exn_str e))
       else raise e).

(** The body of [for attempt in range(max_attempts)], one turn. *)
Definition poll_attempt (headers : list (string * string)) (operation_url : json)
    (max_attempts attempt delay_seconds : Z) : M CatCloudBackup loop_step :=
  try_except
    (response <- requests_get W operation_url headers [] REQUEST_TIMEOUT ;;
     raise_for_status response ;;
     operation_status <- response_json response ;;
     s1 <- py_get operation_status "status" JNull ;;
     if eq_str s1 "success" then ret LoopReturn
     else
       (s2 <- py_get operation_status "status" JNull ;;
        if eq_str s2 "failed" then
          (error_msg <- py_get operation_status "message" (JStr "Неизвестная ошибка") ;;
           raise (new_exn RequestException
                    ("Ошибка при загрузке файла: " ++ py_str W error_msg)))
        else
          (s3 <- py_get operation_status "status" JNull ;;
           if eq_str s3 "in-progress" then
             if attempt <? max_attempts - 1 then
               (time_sleep delay_seconds ;;
                ret (LoopContinue (delay_seconds * 2)))
             else ret (LoopContinue delay_seconds)
           else ret (LoopContinue delay_seconds))))
    (fun e =>
       if isinstance e RequestException then
         if attempt =? max_attempts - 1 then
           raise (new_exn RequestException
                    ("Не удалось завершить операцию после " ++ string_of_Z max_attempts
                       ++ " попыток: " ++ exn_str e))
         else ret (LoopContinue delay_seconds)
       else raise e).

Fixpoint poll_loop (headers : list (string * string)) (operation_url : json)
    (max_attempts : Z) (attempts : list Z) (delay_seconds : Z) : M CatCloudBackup unit :=
  match attempts with
  | [] => ret tt
  | attempt :: rest =>
      step <- poll_attempt headers operation_url max_attempts attempt delay_seconds ;;
      match step with
      | LoopReturn => ret tt
      | LoopContinue delay_seconds' =>
          poll_loop headers operation_url max_attempts rest delay_seconds'
      end
  end.

Definition _wait_for_operation_completion (operation_url : json) : M CatCloudBackup unit :=
  headers <- _get_authorization_headers ;;
  let max_attempts := 10 in
  let delay_seconds := 1 in
  poll_loop headers operation_url max_attempts (range max_attempts) delay_seconds.

Definition _upload_file_to_disk (file_data filename : string) : M CatCloudBackup json :=
  self <- get_self ;;
  let remote_path := "/" ++ _group_name self ++ "/" ++ filename in
  try_except
    (upload_url <- _get_upload_url remote_path ;;
     response <- requests_put W upload_url [] [] (Some file_data) 60 ;;
     raise_for_status response ;;
     (if status_code response =? 202 then
        (decoded <- response_json response ;;
         operation_url <- py_get decoded "href" JNull ;;
         if truthy operation_url then
           (print "⏳ Файл принят в обработку. Ожидаю завершения загрузки..." ;;
            _wait_for_operation_completion operation_url)
         else ret tt)
      else ret tt) ;;
     file_metadata <- _get_file_metadata remote_path ;;
     size <- py_get file_metadata "size" (JInt (len file_data)) ;;
     now1 <- datetime_now W ;;
     created <- py_get file_metadata "created" (JStr (isoformat now1)) ;;
     now2 <- datetime_now W ;;
     modified <- py_get file_metadata "modified" (JStr (isoformat now2)) ;;
     ret (JObj [("name", JStr filename);
                ("path", JStr remote_path);
                ("size", size);
                ("created", created);
                ("modified", modified)]))
    (fun e =>
       if isinstance e Timeout then
         raise (new_exn RequestException ("Таймаут при загрузке файла " ++ filename))
       else if isinstance e RequestException then
         raise (new_exn RequestException
                  ("Ошибка при загрузке файла " ++ filename ++ ": " ++ exn_str e))
       else raise e).

Definition backup_cat_image (text : string) : M CatCloudBackup json :=
  self <- get_self ;;
  _create_remote_directory ("/" ++ _group_name self) ;;
  image_data <- _download_cat_image text ;;
  filename <- _generate_filename text ;;
  file_info <- _upload_file_to_disk image_data filename ;;
  self <- get_self ;;
  set_self (mkCatCloudBackup (_yandex_token self) (_group_name self)
              (_uploaded_files_info self ++ [file_info])) ;;
  ret file_info.

Definition save_backup_info (filename : string) : M CatCloudBackup unit :=
  self <- get_self ;;
  now <- datetime_now W ;;
  total_size <- sum_of_items "size" 0 (_uploaded_files_info self) ;;
  let backup_data :=
    JObj [("group_name", JStr (_group_name self));
          ("backup_date", JStr (isoformat now));
          ("files", JArr (_uploaded_files_info self));
          ("total_files", JInt (Z.of_nat (List.length (_uploaded_files_info self))));
          ("total_size", JInt total_size)] in
  try_except
    (dump_to_file W filename backup_data)
    (fun e =>
       if isinstance e OSError then
         raise (new_exn Exception
                  ("Ошибка при сохранении файла " ++ filename ++ ": " ++ exn_str e))
       else raise e).

End Methods.

(* ================================================================== *)
(** ** Module-level functions and [main] *)

(** ["=" * n]. *)
Fixpoint times (c : ascii) (n : nat) : string :=
  match n with
  | O => EmptyString
  | S k => String c (times c k)
  end.

Definition newline : string := String "010" EmptyString.

Definition DEFAULT_BACKUP_INFO : string := "backup_info.json".

Section Script.

Variable W : World.

Definition _get_yandex_token {S} : M S string :=
  yandex_token <- os_getenv W "YANDEX_TOKEN" ;;
  match yandex_token with
  | Some token =>
      if String.eqb token "" then
        (line <- input W "Введите OAuth токен Яндекс.Диска: " ;; ret (strip line))
      else ret token
  | None =>
      line <- input W "Введите OAuth токен Яндекс.Диска: " ;; ret (strip line)
  end.

Definition _get_group_name {S} : M S string :=
  group_name <- os_getenv W "GROUP_NAME" ;;
  ret (match group_name with Some name => name | None => "Нетология" end).

Definition _get_text_from_user {S} : M S string :=
  line <- input W "Введите текст для картинки кота: " ;;
  let text := strip line in
  if String.eqb text "" then raise (new_exn ValueError "Текст не может быть пустым!")
  else ret text.

Definition _print_error_details {S} (error : exn) : M S unit :=
  match exn_response error with
  | None => raise (new_exn AttributeError "'NoneType' object has no attribute 'status_code'")
  | Some r =>
      print ("  Статус код: " ++ string_of_Z (status_code r)) ;;
      try_except
        (error_json <- response_json r ;;
         has_message <- py_contains "message" error_json ;;
         if has_message : bool then
           (message <- py_getitem error_json "message" ;;
            print ("  Сообщение: " ++ py_str W message))
         else print ("  Ответ: " ++ utf8 (firstn 200 (text r)) ++ "..."))
        (fun e =>
           if isinstance e JSONDecodeError || isinstance e AttributeError then
             print ("  Ответ: " ++ utf8 (firstn 200 (text r)) ++ "...")
           else raise e)
  end.

Definition _print_success_message {S} (file_info : json) : M S unit :=
  print "✅ Картинка успешно загружена!" ;;
  name <- py_getitem file_info "name" ;;
  print ("  📄 Имя файла: " ++ py_str W name) ;;
  size <- py_getitem file_info "size" ;;
  print ("  📊 Размер: " ++ py_str W size ++ " байт") ;;
  path <- py_getitem file_info "path" ;;
  print ("  📂 Путь на Яндекс.Диске: " ++ py_str W path).

Definition _print_program_header {S} : M S unit :=
  let separator := times "=" 50 in
  print separator ;;
  print "CatCloudBackup - Резервное копирование картинок кошек" ;;
  print separator.

Definition _print_program_footer {S} : M S unit :=
  let separator := times "=" 50 in
  print (newline ++ separator) ;;
  print "🎉 Резервное копирование завершено успешно!" ;;
  print "🔗 Проверить Яндекс.Диск: https://disk.yandex.ru/client/disk" ;;
  print separator.

(** The body of the [try] block of [main]. *)
Definition main_try : M unit unit :=
  yandex_token <- _get_yandex_token ;;
  group_name <- _get_group_name ;;
  print ("📁 Название группы (папки): " ++ group_name) ;;
  text <- _get_text_from_user ;;
  with_object (__init__ yandex_token group_name)
    (print (newline ++ "🐱 Получаю картинку кота с текстом '" ++ text ++ "'...") ;;
     file_info <- backup_cat_image W text ;;
     _print_success_message file_info ;;
     print (newline ++ "💾 Сохраняю информацию о загруженных файлах...") ;;
     save_backup_info W DEFAULT_BACKUP_INFO ;;
     print "✅ Информация сохранена в backup_info.json" ;;
     _print_program_footer).

(** The [except] clauses of [main], in their order. *)
Definition main_except (error : exn) : M unit unit :=
  if isinstance error ValueError then
    print ("❌ Ошибка: " ++ exn_str error)
  else if isinstance error RequestException then
    (print (newline ++ "❌ Ошибка при работе с API: " ++ exn_str error) ;;
     match exn_response error with
     | Some _ => _print_error_details error
     | None => ret tt
     end)
  else
    (print (newline ++ "❌ Произошла непредвиденная ошибка: " ++ exn_str error) ;;
     print "Пожалуйста, проверьте подключение к интернету и правильность токена.").

Definition main : M unit unit :=
  _print_program_header ;;
  try_except main_try main_except.

End Script.

(* ================================================================== *)
(** ** Observations on a trace *)

(** The requests of a trace, oldest first. *)
Fixpoint http_requests (tr : list event) : list request :=
  match tr with
  | [] => []
  | EvHttp req _ :: rest => req :: http_requests rest
  | _ :: rest => http_requests rest
  end.

(** The delays slept in a trace, oldest first. *)
Fixpoint sleeps (tr : list event) : list Z :=
  match tr with
  | [] => []
  | EvSleep d :: rest => d :: sleeps rest
  | _ :: rest => sleeps rest
  end.

(** The status codes [raise_for_status] turns into an [HTTPError]. *)
Definition is_http_error (r : response) : bool :=
  (400 <=? status_code r) && (status_code r <? 600).

(** The exchange brought back a JSON object whose ["status"] is [status]. *)
Definition reports (status : string) (out : http_outcome) : bool :=
  match out with
  | Responded r =>
      negb (is_http_error r) &&
      match body r with
      | Some (JObj fields) =>
          match dict_lookup "status" fields with
          | Some v => eq_str v status
          | None => false
          end
      | _ => false
      end
  | Failed _ _ => false
  end.

(** The status request [_wait_for_operation_completion] sends. *)
Definition status_request (self : CatCloudBackup) (operation_url : json) : request :=
  mkRequest GET operation_url [("Authorization", "OAuth " ++ _yandex_token self)]
    [] None REQUEST_TIMEOUT.

(** 1, 2, 4, ...: the first [n] delays of the backoff that starts at [d]. *)
Definition backoff (d : Z) (n : nat) : list Z :=
  map (fun k => d * 2 ^ Z.of_nat k) (seq 0 n).

(** What a run of [m] from [st] returns, the store it leaves, and the events
    it appends to the trace. *)
Definition result {S A} (m : M S A) (st : store S) : outcome A := fst (m st).
Definition final {S A} (m : M S A) (st : store S) : store S := snd (m st).
Definition events {S A} (m : M S A) (st : store S) : list event :=
  skipn (List.length (trace st)) (trace (final m st)).

(** Events that are an HTTP exchange or a sleep. *)
Definition net_or_sleep (e : event) : Prop :=
  match e with
  | EvHttp _ _ | EvSleep _ => True
  | _ => False
  end.

(** The requests the methods send. *)
Definition auth_headers (self : CatCloudBackup) : list (string * string) :=
  [("Authorization", "OAuth " ++ _yandex_token self)].

Definition mkdir_request (self : CatCloudBackup) (directory_path : string) : request :=
  mkRequest PUT (JStr (YANDEX_API_BASE_URL ++ "/resources")) (auth_headers self)
    [("path", directory_path)] None REQUEST_TIMEOUT.

Definition download_request (text : string) : request :=
  mkRequest GET (JStr (CAT_API_BASE_URL ++ "/" ++ text)) [] [] None REQUEST_TIMEOUT.

Definition upload_url_request (self : CatCloudBackup) (remote_path : string) : request :=
  mkRequest GET (JStr (YANDEX_API_BASE_URL ++ "/resources/upload")) (auth_headers self)
    [("path", remote_path); ("overwrite", "true")] None REQUEST_TIMEOUT.

Definition upload_request (upload_url : json) (file_data : string) : request :=
  mkRequest PUT upload_url [] [] (Some file_data) 60.

Definition metadata_request (self : CatCloudBackup) (remote_path : string) : request :=
  mkRequest GET (JStr (YANDEX_API_BASE_URL ++ "/resources")) (auth_headers self)
    [("path", remote_path)] None REQUEST_TIMEOUT.

(** Whether a method ended by raising a plain [RequestException], the
    class its handlers raise. *)
Definition raises_request_exception {A} (res : outcome A) : Prop :=
  exists msg, res = Raised (new_exn RequestException msg).

(** The characters of a string, and what [_generate_filename] makes of one
    character of its text. *)
Definition chars (s : string) : list ascii := list_ascii_of_string s.

Definition is_forbidden (c : ascii) : bool := existsb (Ascii.eqb c) forbidden_chars.

Definition sanitize (c : ascii) : ascii := if is_forbidden c then "_"%char else c.

(** The characters a timestamp is made of. *)
Definition is_stamp_char (c : ascii) : bool :=
  let n := nat_of_ascii c in
  ((48 <=? n) && (n <=? 57) || (n =? 95))%nat.

(** The upload answer that makes [_upload_file_to_disk] poll: status 202
    and a JSON object whose ["href"] is a true value. *)
Definition accepted (out : http_outcome) : bool :=
  match out with
  | Responded r =>
      (status_code r =? 202) &&
      match body r with
      | Some (JObj fields) =>
          match dict_lookup "href" fields with
          | Some v => truthy v
          | None => false
          end
      | _ => false
      end
  | Failed _ _ => false
  end.

(** Status 202 and a JSON object that has an ["href"] field, whatever its
    value. *)
Definition has_href_field (out : http_outcome) : bool :=
  match out with
  | Responded r =>
      (status_code r =? 202) &&
      match body r with
      | Some (JObj fields) =>
          match dict_lookup "href" fields with
          | Some _ => true
          | None => false
          end
      | _ => false
      end
  | Failed _ _ => false
  end.

(** An upload answer after which the code goes on to the metadata without
    polling: no HTTP error, and either a status other than 202 or a JSON
    object without a true ["href"]. *)
Definition goes_straight_on (out : http_outcome) : bool :=
  match out with
  | Responded r =>
      negb (is_http_error r) && negb (accepted out) &&
      (negb (status_code r =? 202) ||
       match body r with Some (JObj _) => true | _ => false end)
  | Failed _ _ => false
  end.

Definition HOURGLASS_LINE : string :=
  "⏳ Файл принят в обработку. Ожидаю завершения загрузки...".

(** The record [_upload_file_to_disk] returns. *)
Definition backup_record (name path : string) (size created modified : json) : json :=
  JObj [("name", JStr name); ("path", JStr path); ("size", size);
        ("created", created); ("modified", modified)].

(** The events that make up the workflow: reads of the environment, HTTP
    exchanges and file writes (prints, sleeps, prompts and clock reads are
    left out). *)
Definition is_step (e : event) : bool :=
  match e with
  | EvGetenv _ | EvHttp _ _ | EvWriteJson _ _ _ => true
  | _ => false
  end.

Definition workflow (tr : list event) : list event := filter is_step tr.

(** What the last stage of an upload appends and returns. *)
Definition metadata_stage (self : CatCloudBackup) (filename remote_path : string)
    (res : outcome json) (tail : list event) : Prop :=
  exists out,
    (tail = [EvHttp (metadata_request self remote_path) out] /\ exists e, res = Raised e)
    \/ (tail = [EvHttp (metadata_request self remote_path) out; EvNow; EvNow]
        /\ exists size created modified,
             res = Ok (backup_record filename remote_path size created modified)).

(** The four ways a run of [_upload_file_to_disk] can go: no upload URL;
    the PUT refused; the PUT accepted for asynchronous processing, then
    polled; the PUT done, then straight on to the metadata. *)
Definition upload_run (self : CatCloudBackup) (file_data filename remote_path : string)
    (res : outcome json) (new : list event) : Prop :=
  (exists o1,
      new = [EvHttp (upload_url_request self remote_path) o1]
      /\ exists e, res = Raised e)
  \/ (exists o1 u o2,
        new = [EvHttp (upload_url_request self remote_path) o1;
               EvHttp (upload_request u file_data) o2]
        /\ (exists e, res = Raised e)
        /\ accepted o2 = false /\ goes_straight_on o2 = false)
  \/ (exists o1 u o2 op polls tail,
        new = EvHttp (upload_url_request self remote_path) o1
              :: EvHttp (upload_request u file_data) o2
              :: EvPrint HOURGLASS_LINE :: polls ++ tail
        /\ accepted o2 = true
        /\ Forall net_or_sleep polls
        /\ Forall (eq (status_request self op)) (http_requests polls)
        /\ http_requests polls <> []
        /\ (List.length (http_requests polls) <= 10)%nat
        /\ ((tail = [] /\ exists e, res = Raised e)
            \/ metadata_stage self filename remote_path res tail))
  \/ (exists o1 u o2 tail,
        new = EvHttp (upload_url_request self remote_path) o1
              :: EvHttp (upload_request u file_data) o2 :: tail
        /\ goes_straight_on o2 = true
        /\ metadata_stage self filename remote_path res tail).

(** The size a record contributes to [total_size], when it has one that
    can be added to an integer. *)
Definition record_size (record : json) : option Z :=
  match record with
  | JObj fields =>
      match dict_lookup "size" fields with
      | Some (JInt n) => Some n
      | Some (JBool b) => Some (if b then 1 else 0)
      | _ => None
      end
  | _ => None
  end.

Fixpoint sum_sizes (records : list json) : option Z :=
  match records with
  | [] => Some 0
  | record :: rest =>
      match record_size record, sum_sizes rest with
      | Some n, Some m => Some (n + m)
      | _, _ => None
      end
  end.

(** The document [save_backup_info] dumps. *)
Definition backup_document (self : CatCloudBackup) (date : string) (total : Z) : json :=
  JObj [("group_name", JStr (_group_name self));
        ("backup_date", JStr date);
        ("files", JArr (_uploaded_files_info self));
        ("total_files", JInt (Z.of_nat (List.length (_uploaded_files_info self))));
        ("total_size", JInt total)].

(** [m] lets only exceptions with the property [P] escape. *)
Definition raises_only {S A} (P : exn -> Prop) (m : M S A) : Prop :=
  forall st e, result m st = Raised e -> P e.

(** An exception of one of the [classes] that carries no response, as
    [SomeError("...")] builds it; and what a [try] body of the class may
    raise: such an exception, or one that its [except RequestException]
    catches. *)
Definition plain (classes : list exn_class) (e : exn) : Prop :=
  exn_response e = None /\ In (exn_class_of e) classes.

Definition caught_or_plain (classes : list exn_class) (e : exn) : Prop :=
  isinstance e RequestException = true \/ plain classes e.

(** The classes of the exceptions that leave [backup_cat_image],
    [save_backup_info] and the [try] block of [main]. *)
Definition backup_errors : list exn_class :=
  [RequestException; KeyError; TypeError; AttributeError].

Definition save_errors : list exn_class := [KeyError; TypeError; Exception].

Definition main_errors : list exn_class := (ValueError :: backup_errors ++ save_errors)%list.

(* ================================================================== *)
(** ** Example worlds *)

(** The code points of an ASCII text. *)
Definition code_points (ascii_text : string) : list Z :=
  map (fun c => Z.of_N (N_of_ascii c)) (list_ascii_of_string ascii_text).

Definition json_reply (status : Z) (v : json) : http_outcome :=
  Responded (mkResponse status "" "" "" [] (Some v) "").

Definition raw_reply (status : Z) (bytes : string) : http_outcome :=
  Responded (mkResponse status "" "" bytes (code_points bytes) None
               "Expecting value: line 1 column 1 (char 0)").

Definition noon : datetime := mkDatetime 2024 5 17 12 30 45 123456.

(** A world whose services answer the k-th request of the run with the k-th
    entry of [replies] and whose connection fails after that; the token
    comes from the environment and the user types [line]. *)
Definition scripted (replies : list http_outcome) (line : string) : World :=
  mkWorld
    (fun h _ => nth (List.length (http_requests h)) replies
                  (Failed NetConnection "connection refused"))
    (fun _ => noon)
    (fun name => if String.eqb name "YANDEX_TOKEN" then Some "t0k3n" else None)
    (fun _ => line)
    (fun _ _ => None)
    (fun _ => "<container>").

Definition operation_status (status : string) : http_outcome :=
  json_reply 200 (JObj [("status", JStr status)]).

Definition operation_failed (message : string) : http_outcome :=
  json_reply 200 (JObj [("status", JStr "failed"); ("message", JStr message)]).

Definition fresh : store CatCloudBackup := mkStore (__init__ "t0k3n" "cats") [].

(** The copy fails at once, yet a later poll says success. *)
Definition failed_then_success : World :=
  scripted [operation_failed "disk is full"; operation_status "success"] "".

(** The copy has failed, and every poll says so. *)
Definition always_failed : World :=
  scripted (repeat (operation_failed "disk is full") 10) "".

(** The copy never leaves the in-progress state. *)
Definition never_done : World :=
  scripted (repeat (operation_status "in-progress") 10) "".

(** The upload is accepted for asynchronous processing, but the "href" of
    the answer is an empty string. *)
Definition empty_href : World :=
  scripted
    [json_reply 200 (JObj [("href", JStr "https://uploader/1")]);
     json_reply 202 (JObj [("href", JStr "")]);
     json_reply 200 (JObj [("size", JInt 4);
                           ("created", JStr "2024-05-17T12:30:45+00:00");
                           ("modified", JStr "2024-05-17T12:30:46+00:00")])]
    "".

(** The upload is accepted for asynchronous processing and is done at the
    second poll. *)
Definition accepted_then_done : World :=
  scripted
    [json_reply 200 (JObj [("href", JStr "https://uploader/1")]);
     json_reply 202 (JObj [("href", JStr "https://op/7")]);
     operation_status "in-progress";
     operation_status "success";
     json_reply 200 (JObj [("size", JInt 4);
                           ("created", JStr "2024-05-17T12:30:45+00:00");
                           ("modified", JStr "2024-05-17T12:30:46+00:00")])]
    "".

(** The upload is accepted for asynchronous processing and is still in
    progress at the tenth poll. *)
Definition accepted_never_done : World :=
  scripted
    ([json_reply 200 (JObj [("href", JStr "https://uploader/1")]);
      json_reply 202 (JObj [("href", JStr "https://op/7")])]
     ++ repeat (operation_status "in-progress") 10
     ++ [json_reply 200 (JObj [("size", JInt 4)])])%list
    "".

(** The upload is accepted for asynchronous processing with an empty body. *)
Definition accepted_without_body : World :=
  scripted
    [json_reply 200 (JObj [("href", JStr "https://uploader/1")]);
     raw_reply 202 ""]
    "".

(** Every service answers as it should; the user types a caption. *)
Definition happy : World :=
  scripted
    [raw_reply 201 "";
     raw_reply 200 "JPEGDATA";
     json_reply 200 (JObj [("href", JStr "https://uploader/1")]);
     raw_reply 201 "";
     json_reply 200 (JObj [("size", JInt 8);
                           ("created", JStr "2024-05-17T12:30:45+00:00");
                           ("modified", JStr "2024-05-17T12:30:46+00:00")])]
    " hello cat ".

(** The object after [record] has been appended to its list. *)
Definition with_record (self : CatCloudBackup) (record : json) : CatCloudBackup :=
  mkCatCloudBackup (_yandex_token self) (_group_name self)
    (_uploaded_files_info self ++ [record]).

(** The workflow of a run of [main] from [st], in the order of the code:
    the token and the folder name are read, the folder is ensured, the image
    is downloaded, an upload URL is requested, the downloaded bytes are PUT
    there, the operation is polled (at most 10 times, possibly never), the
    metadata is fetched and the one record is written to backup_info.json. *)
Definition runs_in_code_order (W : World) (st : store unit) : Prop :=
  exists token folder text r2 filename upload_url o1 o3 o4 polls o5
         date total size created modified,
    let self := __init__ token folder in
    let remote_path := "/" ++ folder ++ "/" ++ filename in
    workflow (events (main W) st)
    = ([EvGetenv "YANDEX_TOKEN"; EvGetenv "GROUP_NAME";
        EvHttp (mkdir_request self ("/" ++ folder)%string) o1;
        EvHttp (download_request text) (Responded r2);
        EvHttp (upload_url_request self remote_path) o3;
        EvHttp (upload_request upload_url (content r2)) o4]
       ++ polls
       ++ [EvHttp (metadata_request self remote_path) o5;
           EvWriteJson "backup_info.json"
             (backup_document
                (with_record self
                   (backup_record filename remote_path size created modified))
                date total) None])%list
    /\ Forall (fun e => exists op out, e = EvHttp (status_request self op) out) polls
    /\ (List.length polls <= 10)%nat.

(** The store a run of the program starts from. *)
Definition start : store unit := mkStore tt [].

(** An error that carries an HTTP response, as [raise_for_status] raises
    it. *)
Definition http_error_of (r : response) : exn := mkExn HTTPError "HTTP error" (Some r).

(** A 404 answer with a JSON body that explains itself, and one whose body
    is a bare JSON number. *)
Definition not_found : response :=
  mkResponse 404 "Not Found" "https://cloud-api.yandex.net/v1/disk/resources"
    "{...}" (code_points "{...}") (Some (JObj [("message", JStr "Resource not found.")])) "".

Definition bare_number : response :=
  mkResponse 500 "Internal Server Error" "https://cloud-api.yandex.net/v1/disk/resources"
    "7" (code_points "7") (Some (JInt 7)) "".

(** A 502 answer whose body is a page of 201 Cyrillic letters (U+044F). *)
Definition cyrillic_page : response :=
  mkResponse 502 "Bad Gateway" "https://cloud-api.yandex.net/v1/disk/resources"
    (utf8 (repeat 1103 201)) (repeat 1103 201) None
    "Expecting value: line 1 column 1 (char 0)".

(** [fields.get(key, default)] on the fields of a dict. *)
Definition field_or (key : string) (fields : list (string * json)) (default : json) : json :=
  match dict_lookup key fields with
  | Some v => v
  | None => default
  end.

(** Events that touch neither the network, the clock nor the file system. *)
Definition is_local (e : event) : bool :=
  match e with
  | EvPrint _ | EvGetenv _ | EvInput _ => true
  | _ => false
  end.

(** A world without services in which the user types only white space: a
    space, a no-break space (U+00A0), an em space (U+2003) and a tab. *)
Definition blank_line : World :=
  scripted [] (" " ++ bytes [194; 160; 226; 128; 131; 9]).



(** A world in which no service can be reached. *)
Definition offline : World := scripted [] "cat".

(** [m] appends only events that pass the test [q]. *)
Definition appends_only {S A} (q : event -> bool) (m : M S A) : Prop :=
  forall st, exists new, trace (final m st) = (trace st ++ new)%list /\ forallb q new = true.

(** Events that write a file; and the events of the class up to
    [backup_cat_image], which talks to the services, sleeps, prints and
    reads the clock. *)
Definition is_write (e : event) : bool :=
  match e with
  | EvWriteJson _ _ _ => true
  | _ => false
  end.


(** Events that print; events that print or read the clock. *)
Definition is_print (e : event) : bool :=
  match e with
  | EvPrint _ => true
  | _ => false
  end.






(** The happy world with a metadata answer whose "size" is null, and the
    happy world on a disk that cannot be written. *)
Definition null_size : World :=
  scripted
    [raw_reply 201 "";
     raw_reply 200 "JPEGDATA";
     json_reply 200 (JObj [("href", JStr "https://uploader/1")]);
     raw_reply 201 "";
     json_reply 200 (JObj [("size", JNull);
                           ("created", JStr "2024-05-17T12:30:45+00:00");
                           ("modified", JStr "2024-05-17T12:30:46+00:00")])]
    " hello cat ".

Definition read_only_disk : World :=
  mkWorld (http_reply happy) (clock happy) (environ happy) (stdin_line happy)
    (fun _ _ => Some "[Errno 30] Read-only file system: 'backup_info.json'")
    (repr happy).

(** Unicode white space, by code point: the control characters U+0009 to
    U+000D and U+001C to U+001F, the space, U+0085, the no-break space,
    U+1680, U+2000 to U+200A, U+2028, U+2029, U+202F, U+205F and U+3000. *)
Definition white_space_code_points : list Z :=
  [9; 10; 11; 12; 13; 28; 29; 30; 31; 32; 133; 160; 5760;
   8192; 8193; 8194; 8195; 8196; 8197; 8198; 8199; 8200; 8201; 8202;
   8232; 8233; 8239; 8287; 12288].

Definition is_white (c : string) : Prop :=
  In c (map utf8_encode white_space_code_points).

(** A text that is nothing but white space. *)
Definition all_white (s : string) : Prop :=
  exists whites, Forall is_white whites /\ s = join whites.

(** [text] is [line] without the white space at its two ends: [line] is
    white space, then [text], then white space, and no white-space character
    begins or ends [text]. *)
Definition stripped (line text : string) : Prop :=
  exists before after,
    all_white before /\ all_white after
    /\ line = (before ++ text ++ after)%string
    /\ (forall w rest, is_white w -> text <> (w ++ rest)%string)
    /\ (forall w rest, is_white w -> text <> (rest ++ w)%string).

(** The decimal numeral of [n] in exactly [width] digits, by division. *)
Fixpoint decimal (width n : nat) : string :=
  match width with
  | O => EmptyString
  | S w => decimal w (n / 10) ++ String (ascii_of_nat (48 + n mod 10)) EmptyString
  end.

(** The readings of a clock: a date of a four-digit year and a time of
    day. *)
Definition is_datetime (d : datetime) : Prop :=
  (1000 <= year d < 10 ^ 4 /\ 1 <= month d <= 12 /\ 1 <= day d <= 31
   /\ hour d < 24 /\ minute d < 60 /\ second d < 60 /\ microsecond d < 10 ^ 6)%nat.

(** The digits of [n] as the standard library holds them, the least
    significant first. *)
Definition digit (k : nat) (d : Decimal.uint) : Decimal.uint :=
  match k with
  | 0 => Decimal.D0 d | 1 => Decimal.D1 d | 2 => Decimal.D2 d | 3 => Decimal.D3 d
  | 4 => Decimal.D4 d | 5 => Decimal.D5 d | 6 => Decimal.D6 d | 7 => Decimal.D7 d
  | 8 => Decimal.D8 d | _ => Decimal.D9 d
  end%nat.

Fixpoint little_digits (width n : nat) : Decimal.uint :=
  match width with
  | O => Decimal.Nil
  | S w => digit (n mod 10) (little_digits w (n / 10))
  end.

(* ================================================================== *)
(** * Proofs *)

Local Open Scope list_scope.

(** ** Lists and traces *)

Lemma http_requests_app a b : http_requests (a ++ b) = http_requests a ++ http_requests b.
Proof.
  induction a as [ | e a IH]; [reflexivity | ].
  destruct e; cbn; rewrite ?IH; reflexivity.
Qed.

Lemma sleeps_app a b : sleeps (a ++ b) = sleeps a ++ sleeps b.
Proof.
  induction a as [ | e a IH]; [reflexivity | ].
  destruct e; cbn; rewrite ?IH; reflexivity.
Qed.

Lemma backoff_S d n : backoff d (S n) = d :: backoff (d * 2) n.
Proof.
  unfold backoff. cbn [seq map]. f_equal; [cbn; lia | ].
  rewrite <- seq_shift, map_map. apply map_ext. intros k.
  rewrite Nat2Z.inj_succ, Z.pow_succ_r by lia. lia.
Qed.

Lemma split_cons {A} (e x : A) l pre post :
  e :: l = pre ++ x :: post ->
  (pre = [] /\ e = x /\ l = post) \/ (exists pre', pre = e :: pre' /\ l = pre' ++ x :: post).
Proof.
  destruct pre as [ | e' pre']; cbn; intros H; injection H as -> ->; eauto.
Qed.

Lemma events_of_run {S A} (m : M S A) (st : store S) res o new :
  m st = (res, mkStore o (trace st ++ new)) ->
  result m st = res /\ obj (final m st) = o /\
  trace (final m st) = trace st ++ new /\ events m st = new.
Proof.
  intros H. unfold events, result, final. rewrite H. cbn.
  repeat split. rewrite skipn_app, skipn_all, Nat.sub_diag. reflexivity.
Qed.

(** ** Tactics for running monadic code *)

Ltac run_monad :=
  unfold try_except, requests_get, requests_put, send, bind, history, emit, ret, raise,
    raise_for_status, response_json, py_get, time_sleep, print, get_self, set_self;
  cbn [trace obj fst snd].

Ltac split_status r :=
  destruct (400 <=? status_code r) eqn:?, (status_code r <? 500) eqn:?,
           (500 <=? status_code r) eqn:?, (status_code r <? 600) eqn:?;
  try (exfalso; lia); cbn [andb orb negb].

Ltac conj := repeat match goal with |- _ /\ _ => split end.

Ltac leaf :=
  eexists; split; [cbn [trace obj]; rewrite <- ?app_assoc; reflexivity | ];
  repeat split; intros; cbn [andb] in *; try discriminate; try congruence; eauto.

Ltac no_split :=
  match goal with
  | H : [] = ?pre ++ _ :: _ |- _ => destruct pre; discriminate H
  | H : [_] = ?pre ++ _ :: _ |- _ =>
      apply split_cons in H as [(-> & H & <-) | (? & -> & H)]; [ | no_split]
  end.

(** ** The poll loop *)

Section PollLoop.

Variable W : World.

(** One turn of the loop: one exchange, then a sleep exactly when the
    answer is in-progress and another attempt is left. *)
Lemma poll_attempt_shape headers u max attempt delay (st : store CatCloudBackup) :
  let req := mkRequest GET u headers [] None REQUEST_TIMEOUT in
  let out := http_reply W (trace st) req in
  let slept := reports "in-progress" out && (attempt <? max - 1) in
  exists res,
    poll_attempt W headers u max attempt delay st
    = (res, mkStore (obj st)
              (trace st ++ EvHttp req out :: if slept then [EvSleep delay] else []))
    /\ (forall d, res = Ok (LoopContinue d) -> d = if slept then delay * 2 else delay)
    /\ (reports "in-progress" out = true -> exists d, res = Ok (LoopContinue d))
    /\ (reports "success" out = true <-> res = Ok LoopReturn)
    /\ (reports "failed" out = true -> attempt <> max - 1 -> res = Ok (LoopContinue delay)).
Proof.
  intros req out slept. subst slept.
  unfold poll_attempt. run_monad. fold req. fold out.
  unfold reports, is_http_error.
  destruct out as [f msg | r].
  - destruct f; cbn; destruct (Z.eqb_spec attempt (max - 1)); leaf.
  - split_status r.
    all: cbn -[String.append].
    all: try (destruct (Z.eqb_spec attempt (max - 1)); leaf; fail).
    all: destruct (body r) as [[ | b | n | s | items | fields] | ];
      cbn -[String.append];
      try (destruct (Z.eqb_spec attempt (max - 1)); leaf; fail).
    all: destruct (dict_lookup "status" fields) as [[ | b | n | s | items | fields'] | ];
      cbn -[String.append]; try (leaf; fail).
    all: destruct (String.eqb_spec s "success"); [subst; cbn -[String.append]; leaf | ].
    all: destruct (String.eqb_spec s "failed");
      [subst; cbn -[String.append]; destruct (Z.eqb_spec attempt (max - 1)); leaf | ].
    all: destruct (String.eqb_spec s "in-progress");
      [subst; cbn -[String.append]; destruct (attempt <? max - 1); leaf | leaf].
Qed.

(** The whole loop, from attempt [a] with [n] attempts left. *)
Lemma poll_loop_shape headers u n : forall a delay (st : store CatCloudBackup),
  let req := mkRequest GET u headers [] None REQUEST_TIMEOUT in
  exists res new,
    poll_loop W headers u (Z.of_nat (a + n)) (map Z.of_nat (seq a n)) delay st
    = (res, mkStore (obj st) (trace st ++ new))
    /\ Forall net_or_sleep new
    /\ Forall (eq req) (http_requests new)
    /\ (List.length (http_requests new) <= n)%nat
    /\ (n <> 0%nat -> http_requests new <> [])
    /\ sleeps new = backoff delay (List.length (sleeps new))
    /\ (forall pre req' out post,
          new = pre ++ EvHttp req' out :: post ->
          reports "in-progress" out = true ->
          http_requests post <> [] ->
          exists post',
            post = EvSleep (delay * 2 ^ Z.of_nat (List.length (sleeps pre))) :: post')
    /\ (forall pre req' out post,
          new = pre ++ EvHttp req' out :: post ->
          reports "success" out = true -> post = [] /\ res = Ok tt)
    /\ ((forall req' out, In (EvHttp req' out) new -> reports "in-progress" out = true) ->
        res = Ok tt /\ List.length (http_requests new) = n
        /\ List.length (sleeps new) = pred n).
Proof.
  induction n as [ | n IH]; intros a delay st req.
  - exists (Ok tt), []. cbn. rewrite app_nil_r. destruct st as [o tr]. conj; auto.
    all: try (intros pre req' out post H; no_split).
  - cbn [seq map poll_loop]. unfold bind at 1.
    destruct (poll_attempt_shape headers u (Z.of_nat (a + S n)) (Z.of_nat a) delay st)
      as (res1 & Hrun & Hdelay & Hprog & Hsucc & _).
    fold req in Hrun, Hdelay, Hprog, Hsucc.
    set (out := http_reply W (trace st) req) in *.
    rewrite Hrun. clear Hrun.
    assert (Hlast : (Z.of_nat a <? Z.of_nat (a + S n) - 1) = negb (Nat.eqb n 0)).
    { destruct n; cbn [Nat.eqb negb]; [apply Z.ltb_ge | apply Z.ltb_lt]; lia. }
    rewrite Hlast in *.
    destruct res1 as [[ | delay'] | e].
    + (* return *)
      assert (Hnot : reports "in-progress" out = false).
      { destruct (reports "in-progress" out); [ | reflexivity].
        destruct Hprog as [d Hd]; [reflexivity | discriminate]. }
      rewrite Hnot in *. cbn [andb].
      exists (Ok tt), [EvHttp req out]. cbn. conj; auto; try lia; try congruence.
      * repeat constructor.
      * intros pre req' out0 post H Hp Hq. no_split. cbn in Hq. congruence.
      * intros pre req' out0 post H Hp. no_split. auto.
      * intros H. specialize (H req out (or_introl eq_refl)). congruence.
    + (* next attempt *)
      specialize (Hdelay delay' eq_refl).
      set (slept := reports "in-progress" out && negb (n =? 0)%nat) in *.
      set (sl := if slept then [EvSleep delay] else []).
      destruct (IH (S a) delay' (mkStore (obj st) (trace st ++ EvHttp req out :: sl)))
        as (res & new' & Hrun & Hkind & Hreq & Hlen & Hne & Hsl & Hpace & Hstop & Hall).
      fold req in Hreq.
      replace (a + S n)%nat with (S a + n)%nat by lia.
      rewrite Hrun. cbn [obj trace]. rewrite <- app_assoc. cbn [app].
      exists res, (EvHttp req out :: sl ++ new'). split; [reflexivity | ].
      assert (Hnoreq : http_requests sl = []) by (unfold sl; destruct slept; reflexivity).
      assert (Hkinds : Forall net_or_sleep sl)
        by (unfold sl; destruct slept; repeat constructor).
      cbn [http_requests sleeps]. rewrite http_requests_app, sleeps_app, Hnoreq.
      cbn [app List.length].
      conj; try (cbn; lia); try congruence.
      * constructor; [exact I | apply Forall_app; auto].
      * constructor; auto.
      * unfold sl. destruct slept; cbn [sleeps app List.length].
        -- rewrite backoff_S, <- Hdelay. congruence.
        -- rewrite <- Hdelay. exact Hsl.
      * intros pre req' out0 post H Hp Hq.
        apply split_cons in H as [(-> & H & <-) | (pre' & -> & H)].
        -- injection H as <- <-. unfold sl, slept in *. rewrite Hp in *. cbn [andb] in *.
           destruct (Nat.eqb_spec n 0) as [-> | Hn]; cbn [negb app] in *.
           ++ rewrite ?http_requests_app in Hq. cbn in Hq.
              destruct (http_requests new'); [congruence | cbn in Hlen; lia].
           ++ exists new'. do 2 f_equal. cbn. lia.
        -- unfold sl in H. destruct slept; cbn [app] in H.
           ++ apply split_cons in H as [(_ & H & _) | (pre'' & -> & H)]; [discriminate | ].
              destruct (Hpace _ _ _ _ H Hp Hq) as [post' ->]. exists post'.
              do 2 f_equal. cbn [sleeps List.length].
              rewrite Nat2Z.inj_succ, Z.pow_succ_r by lia. lia.
           ++ destruct (Hpace _ _ _ _ H Hp Hq) as [post' ->]. exists post'.
              cbn [sleeps]. congruence.
      * intros pre req' out0 post H Hp.
        apply split_cons in H as [(-> & H & <-) | (pre' & -> & H)].
        -- injection H as <- <-. apply Hsucc in Hp. discriminate.
        -- unfold sl in H. destruct slept; cbn [app] in H.
           ++ apply split_cons in H as [(_ & H & _) | (pre'' & -> & H)]; [discriminate | ].
              eapply Hstop; eauto.
           ++ eapply Hstop; eauto.
      * intros H.
        destruct Hall as (-> & Hn & Hs).
        { intros req' out0 Hin. apply (H req' out0). right. apply in_or_app. auto. }
        pose proof (H req out (or_introl eq_refl)) as Hp.
        unfold sl, slept. rewrite Hp. cbn [andb].
        destruct (Nat.eqb_spec n 0) as [-> | Hn0]; cbn [negb sleeps app List.length];
          repeat split; lia.
    + (* the attempt raised *)
      assert (Hnot : reports "in-progress" out = false).
      { destruct (reports "in-progress" out); [ | reflexivity].
        destruct Hprog as [d Hd]; [reflexivity | discriminate]. }
      rewrite Hnot in *. cbn [andb].
      exists (Raised e), [EvHttp req out]. cbn. conj; auto; try lia; try congruence.
      * repeat constructor.
      * intros pre req' out0 post H Hp Hq. no_split. cbn in Hq. congruence.
      * intros pre req' out0 post H Hp. no_split. injection H as <- <-.
        apply Hsucc in Hp. discriminate.
      * intros H. specialize (H req out (or_introl eq_refl)). congruence.
Qed.

End PollLoop.

(** ** [_wait_for_operation_completion] *)

Lemma wait_shape W u (st : store CatCloudBackup) :
  exists res new,
    _wait_for_operation_completion W u st = (res, mkStore (obj st) (trace st ++ new))
    /\ Forall net_or_sleep new
    /\ Forall (eq (status_request (obj st) u)) (http_requests new)
    /\ (List.length (http_requests new) <= 10)%nat
    /\ http_requests new <> []
    /\ sleeps new = backoff 1 (List.length (sleeps new))
    /\ (forall pre req out post,
          new = pre ++ EvHttp req out :: post ->
          reports "in-progress" out = true ->
          http_requests post <> [] ->
          exists post', post = EvSleep (2 ^ Z.of_nat (List.length (sleeps pre))) :: post')
    /\ (forall pre req out post,
          new = pre ++ EvHttp req out :: post ->
          reports "success" out = true -> post = [] /\ res = Ok tt)
    /\ ((forall req out, In (EvHttp req out) new -> reports "in-progress" out = true) ->
        res = Ok tt /\ List.length (http_requests new) = 10%nat
        /\ List.length (sleeps new) = 9%nat).
Proof.
  destruct (poll_loop_shape W [("Authorization", ("OAuth " ++ _yandex_token (obj st))%string)]
              u 10 0 1 st)
    as (res & new & Hrun & Hkind & Hreq & Hlen & Hne & Hsl & Hpace & Hstop & Hall).
  exists res, new. conj; auto.
  intros pre req out post H Hp Hq. destruct (Hpace _ _ _ _ H Hp Hq) as [post' ->].
  exists post'. do 2 f_equal. lia.
Qed.



(** C1 on a run: ten in-progress answers, ten requests, nine sleeps. *)
Example ten_polls_nine_sleeps :
  let new := events (_wait_for_operation_completion never_done (JStr "https://op")) fresh in
  List.length (http_requests new) = 10%nat
  /\ sleeps new = [1; 2; 4; 8; 16; 32; 64; 128; 256].
Proof. vm_compute. split; reflexivity. Qed.

(** C8.  When every status response of the run reports "in-progress",
    [_wait_for_operation_completion] makes all 10 attempts, sleeps 1, 2, ...,
    256 seconds between them and then returns normally, leaving the object
    as it was: its caller sees the same outcome as after a success. *)
Theorem wait_timeout_returns_normally W operation_url (st : store CatCloudBackup) :
  (forall req out,
      In (EvHttp req out) (events (_wait_for_operation_completion W operation_url) st) ->
      reports "in-progress" out = true) ->
  result (_wait_for_operation_completion W operation_url) st = Ok tt
  /\ obj (final (_wait_for_operation_completion W operation_url) st) = obj st
  /\ List.length (http_requests (events (_wait_for_operation_completion W operation_url) st))
     = 10%nat
  /\ sleeps (events (_wait_for_operation_completion W operation_url) st) = backoff 1 9.
Proof.
  destruct (wait_shape W operation_url st)
    as (res & new & Hrun & Hkind & Hreq & Hlen & Hne & Hsl & Hpace & Hstop & Hall).
  apply events_of_run in Hrun as (Hres & Hobj & _ & Hev).
  rewrite Hres, Hobj, Hev. intros H.
  destruct (Hall H) as (-> & Hn & Hs). conj; auto. congruence.
Qed.

Lemma wait_timeout_returns_normally_witness :
  result (_wait_for_operation_completion never_done (JStr "https://op")) fresh = Ok tt
  /\ obj (final (_wait_for_operation_completion never_done (JStr "https://op")) fresh)
     = obj fresh
  /\ List.length
       (http_requests (events (_wait_for_operation_completion never_done (JStr "https://op"))
                         fresh)) = 10%nat
  /\ sleeps (events (_wait_for_operation_completion never_done (JStr "https://op")) fresh)
     = backoff 1 9.
Proof.
  apply (wait_timeout_returns_normally never_done (JStr "https://op") fresh).
  intros req out H. vm_compute in H.
  repeat (destruct H as [H | H]; [try discriminate H; injection H as <- <-; reflexivity | ]).
  contradiction.
Defined.

(** C2, first half.  A status response that reports "success" ends the run:
    it is the last event, and the function returns normally. *)
Lemma wait_stops_on_success W operation_url (st : store CatCloudBackup) pre req out post :
  events (_wait_for_operation_completion W operation_url) st = pre ++ EvHttp req out :: post ->
  reports "success" out = true ->
  post = [] /\ result (_wait_for_operation_completion W operation_url) st = Ok tt.
Proof.
  destruct (wait_shape W operation_url st)
    as (res & new & Hrun & Hkind & Hreq & Hlen & Hne & Hsl & Hpace & Hstop & Hall).
  apply events_of_run in Hrun as (Hres & _ & _ & Hev).
  rewrite Hres, Hev. apply Hstop.
Qed.

(** C2, second half, where the code departs from it.  A status response that
    reports "failed" on any attempt but the last raises inside the [try]
    whose own handler catches it: the turn ends as if nothing had happened,
    without a sleep, and the loop goes on to the next attempt. *)
Lemma failed_status_is_swallowed W headers operation_url attempt delay
    (st : store CatCloudBackup) :
  let req := mkRequest GET operation_url headers [] None REQUEST_TIMEOUT in
  reports "failed" (http_reply W (trace st) req) = true ->
  attempt <> 10 - 1 ->
  result (poll_attempt W headers operation_url 10 attempt delay) st = Ok (LoopContinue delay).
Proof.
  intros req Hf Hne.
  destruct (poll_attempt_shape W headers operation_url 10 attempt delay st)
    as (res & Hrun & _ & _ & _ & Hfailed).
  unfold result. rewrite Hrun. cbn [fst]. apply Hfailed; assumption.
Qed.

(** C2 at the failing input: the first status response reports "failed"
    with a message, the second reports "success".  The run makes both
    requests and returns normally; no exception carries the message. *)
Example wait_swallows_failed_status :
  let run := _wait_for_operation_completion failed_then_success (JStr "https://op") in
  result run fresh = Ok tt
  /\ events run fresh =
     [EvHttp (status_request (obj fresh) (JStr "https://op")) (operation_failed "disk is full");
      EvHttp (status_request (obj fresh) (JStr "https://op")) (operation_status "success")].
Proof. vm_compute. split; reflexivity. Qed.

(** When all ten status responses report "failed", the exception comes
    only after the tenth request, and its message is the wrapper of the last
    attempt around the message of the operation. *)
Example failed_on_every_attempt_raises_late :
  let run := _wait_for_operation_completion always_failed (JStr "https://op") in
  result run fresh
  = Raised (new_exn RequestException
              ("Не удалось завершить операцию после 10 попыток: "
                 ++ "Ошибка при загрузке файла: disk is full")%string)
  /\ List.length (http_requests (events run fresh)) = 10%nat
  /\ sleeps (events run fresh) = [].
Proof. vm_compute. repeat split; reflexivity. Qed.

(** ** The one-request methods *)

Section OneRequest.

Variable W : World.

Lemma create_remote_directory_shape directory_path (st : store CatCloudBackup) :
  let req := mkdir_request (obj st) directory_path in
  let out := http_reply W (trace st) req in
  exists res,
    _create_remote_directory W directory_path st
    = (res, mkStore (obj st) (trace st ++ [EvHttp req out]))
    /\ match out with
       | Responded r =>
           if status_code r =? 409 then res = Ok tt
           else if is_http_error r then raises_request_exception res
           else res = Ok tt
       | Failed _ _ => raises_request_exception res
       end.
Proof.
  intros req out. unfold _create_remote_directory, _get_authorization_headers.
  run_monad. fold (auth_headers (obj st)). fold (mkdir_request (obj st) directory_path).
  fold req. fold out. unfold is_http_error, raises_request_exception.
  destruct out as [f msg | r].
  - destruct f; cbn -[String.append]; eauto.
  - destruct (status_code r =? 409) eqn:E409; cbn -[String.append].
    + destruct st; eauto.
    + split_status r; cbn -[String.append]; eauto.
Qed.

Lemma download_cat_image_shape text (st : store CatCloudBackup) :
  let req := download_request text in
  let out := http_reply W (trace st) req in
  exists res,
    _download_cat_image W text st
    = (res, mkStore (obj st) (trace st ++ [EvHttp req out]))
    /\ match out with
       | Responded r =>
           if is_http_error r then raises_request_exception res
           else res = Ok (content r)
       | Failed _ _ => raises_request_exception res
       end.
Proof.
  intros req out. unfold _download_cat_image.
  run_monad. fold (download_request text). fold req. fold out.
  unfold is_http_error, raises_request_exception.
  destruct out as [f msg | r].
  - destruct f; cbn -[String.append]; eauto.
  - split_status r; cbn -[String.append]; eauto.
Qed.

End OneRequest.

(** C3.  [_create_remote_directory] sends one PUT for the folder.  When the
    answer has status 409 it returns normally; for any other status that
    [raise_for_status] counts as unsuccessful (400 to 599) and for a
    transport failure it raises a [RequestException]; any other answer
    makes it return normally.  The object is left as it was. *)
Theorem create_remote_directory_tolerates_existing W directory_path
    (st : store CatCloudBackup) :
  let run := _create_remote_directory W directory_path in
  let req := mkdir_request (obj st) directory_path in
  let out := http_reply W (trace st) req in
  final run st = mkStore (obj st) (trace st ++ [EvHttp req out])
  /\ match out with
     | Responded r =>
         if status_code r =? 409 then result run st = Ok tt
         else if is_http_error r then raises_request_exception (result run st)
         else result run st = Ok tt
     | Failed _ _ => raises_request_exception (result run st)
     end.
Proof.
  intros run req out.
  destruct (create_remote_directory_shape W directory_path st) as (res & Hrun & Hres).
  unfold result, final, run. rewrite Hrun. split; [reflexivity | exact Hres].
Qed.

(** C7.  [_download_cat_image] sends one GET to the base URL followed by a
    slash and the text.  It returns the body of the answer unless the
    request failed (a timeout included) or the status is an HTTP error, in
    which case it raises a [RequestException]. *)
Theorem download_cat_image_fetches_says_url W text (st : store CatCloudBackup) :
  let run := _download_cat_image W text in
  let req := mkRequest GET (JStr ("https://cataas.com/cat/says" ++ "/" ++ text)) [] []
               None 30 in
  let out := http_reply W (trace st) req in
  final run st = mkStore (obj st) (trace st ++ [EvHttp req out])
  /\ match out with
     | Responded r =>
         if is_http_error r then raises_request_exception (result run st)
         else result run st = Ok (content r)
     | Failed _ _ => raises_request_exception (result run st)
     end.
Proof.
  intros run req out.
  destruct (download_cat_image_shape W text st) as (res & Hrun & Hres).
  unfold result, final, run. rewrite Hrun. split; [reflexivity | exact Hres].
Qed.

(** ** Strings and [_generate_filename] *)

Lemma chars_app s1 s2 : chars (s1 ++ s2)%string = chars s1 ++ chars s2.
Proof. induction s1 as [ | c s1 IH]; cbn; [reflexivity | f_equal; exact IH]. Qed.

Lemma replace_char old s :
  chars (replace old "_" s) = map (fun c => if Ascii.eqb c old then "_"%char else c) (chars s).
Proof.
  induction s as [ | c s IH]; [reflexivity | ].
  cbn [replace chars list_ascii_of_string map]. fold (chars s).
  destruct (Ascii.eqb c old); cbn; fold (chars (replace old "_" s)); f_equal; exact IH.
Qed.

Lemma fold_replace_chars cs : forall s,
  chars (fold_left (fun name char => replace char "_" name) cs s)
  = map (fun c => fold_left (fun x old => if Ascii.eqb x old then "_"%char else x) cs c)
      (chars s).
Proof.
  induction cs as [ | old cs IH]; intros s; cbn [fold_left].
  - symmetry. apply map_id.
  - rewrite IH, replace_char, map_map. reflexivity.
Qed.

Lemma sanitize_is_the_fold c :
  fold_left (fun x old => if Ascii.eqb x old then "_"%char else x) forbidden_chars c
  = sanitize c.
Proof. destruct c as [[] [] [] [] [] [] [] []]; reflexivity. Qed.

Lemma sanitize_safe c : is_forbidden (sanitize c) = false.
Proof. destruct c as [[] [] [] [] [] [] [] []]; reflexivity. Qed.

Lemma stamp_char_safe c : is_stamp_char c = true -> is_forbidden c = false.
Proof. destruct c as [[] [] [] [] [] [] [] []]; vm_compute; congruence. Qed.

Lemma uint_stamp_chars d :
  Forall (fun c => is_stamp_char c = true) (chars (NilEmpty.string_of_uint d)).
Proof. induction d; cbn; constructor; auto. Qed.

Lemma zeros_stamp_chars n : Forall (fun c => is_stamp_char c = true) (chars (zeros n)).
Proof. induction n; cbn; constructor; auto. Qed.

Lemma pad_stamp_chars w n : Forall (fun c => is_stamp_char c = true) (chars (pad w n)).
Proof.
  unfold pad, string_of_nat. rewrite chars_app. apply Forall_app. split.
  - apply zeros_stamp_chars.
  - apply uint_stamp_chars.
Qed.

Lemma substring_chars (P : ascii -> Prop) s : forall n m,
  Forall P (chars s) -> Forall P (chars (substring n m s)).
Proof.
  induction s as [ | c s IH]; intros n m H.
  - destruct n, m; cbn; constructor.
  - inversion H as [ | ? ? Hc Hs]; subst.
    destruct n as [ | n]; [destruct m as [ | m] | ]; cbn [substring chars list_ascii_of_string].
    + constructor.
    + constructor; [exact Hc | apply (IH 0%nat m Hs)].
    + apply (IH n m Hs).
Qed.

Lemma stamp_chars d :
  Forall (fun c => is_stamp_char c = true) (chars (drop_last 3 (strftime_stamp d))).
Proof.
  unfold drop_last. apply substring_chars. unfold strftime_stamp.
  repeat (rewrite chars_app; apply Forall_app; split);
    try apply pad_stamp_chars; repeat constructor.
Qed.

(** ** Decimal numerals *)

Lemma append_assoc (a b c : string) : ((a ++ b) ++ c = a ++ b ++ c)%string.
Proof. induction a as [ | x a IH]; cbn; [reflexivity | f_equal; exact IH]. Qed.

Lemma of_lu_digit k d :
  (k < 10)%nat ->
  DecimalNat.Unsigned.of_lu (digit k d) = (k + 10 * DecimalNat.Unsigned.of_lu d)%nat.
Proof. intros H. do 10 (destruct k as [ | k]; [reflexivity | ]). lia. Qed.

Lemma revapp_digit k d acc :
  Decimal.revapp (digit k d) acc = Decimal.revapp d (digit k acc).
Proof. do 9 (destruct k as [ | k]; [reflexivity | ]). reflexivity. Qed.

Lemma string_of_digit k acc :
  (k < 10)%nat ->
  NilEmpty.string_of_uint (digit k acc)
  = String (ascii_of_nat (48 + k)) (NilEmpty.string_of_uint acc).
Proof. intros H. do 10 (destruct k as [ | k]; [reflexivity | ]). lia. Qed.

Lemma nb_digits_digit k d : Decimal.nb_digits (digit k d) = S (Decimal.nb_digits d).
Proof. do 9 (destruct k as [ | k]; [reflexivity | ]). reflexivity. Qed.

Lemma mod_10_lt n : (n mod 10 < 10)%nat.
Proof. apply Nat.mod_upper_bound. discriminate. Qed.

Lemma of_lu_little_digits w : forall n,
  DecimalNat.Unsigned.of_lu (little_digits w n) = (n mod 10 ^ w)%nat.
Proof.
  induction w as [ | w IH]; intros n; cbn [little_digits].
  - cbn. reflexivity.
  - rewrite of_lu_digit by apply mod_10_lt. rewrite IH.
    rewrite Nat.pow_succ_r'. symmetry. apply Nat.Div0.mod_mul_r.
Qed.

Lemma nb_digits_little_digits w : forall n, Decimal.nb_digits (little_digits w n) = w.
Proof.
  induction w as [ | w IH]; intros n; cbn [little_digits]; [reflexivity | ].
  rewrite nb_digits_digit, IH. reflexivity.
Qed.

Lemma string_of_revapp_little_digits w : forall n acc,
  NilEmpty.string_of_uint (Decimal.revapp (little_digits w n) acc)
  = (decimal w n ++ NilEmpty.string_of_uint acc)%string.
Proof.
  induction w as [ | w IH]; intros n acc; cbn [little_digits decimal]; [reflexivity | ].
  rewrite revapp_digit, IH, string_of_digit by apply mod_10_lt.
  rewrite append_assoc. reflexivity.
Qed.

Lemma length_string_of_uint d :
  String.length (NilEmpty.string_of_uint d) = Decimal.nb_digits d.
Proof. induction d; cbn; congruence. Qed.

Lemma zeros_string_of_uint k d :
  (zeros k ++ NilEmpty.string_of_uint d)%string
  = NilEmpty.string_of_uint (Nat.iter k Decimal.D0 d).
Proof. induction k as [ | k IH]; cbn; [reflexivity | f_equal; exact IH]. Qed.

Lemma pad_of_uint d :
  d <> Decimal.Nil ->
  pad (Decimal.nb_digits d) (Nat.of_uint d) = NilEmpty.string_of_uint d.
Proof.
  intros Hd. unfold pad, string_of_nat.
  rewrite DecimalNat.Unsigned.to_of, length_string_of_uint, zeros_string_of_uint.
  rewrite (DecimalFacts.iter_D0_unorm d Hd). reflexivity.
Qed.

Lemma append_empty (s : string) : (s ++ "")%string = s.
Proof. induction s as [ | c s IH]; cbn; [reflexivity | f_equal; exact IH]. Qed.

(** [pad] writes the decimal numeral of a number that fits the width. *)
Lemma pad_decimal w n : (0 < w)%nat -> (n < 10 ^ w)%nat -> pad w n = decimal w n.
Proof.
  intros Hw Hn. set (d := Decimal.rev (little_digits w n)).
  assert (Hdigits : Decimal.nb_digits d = w).
  { unfold d. rewrite DecimalFacts.nb_digits_rev. apply nb_digits_little_digits. }
  assert (Hvalue : Nat.of_uint d = n).
  { unfold d. rewrite DecimalNat.Unsigned.of_uint_alt, DecimalFacts.rev_rev.
    rewrite of_lu_little_digits. apply Nat.mod_small, Hn. }
  assert (Hd : d <> Decimal.Nil).
  { intros H. rewrite H in Hdigits. cbn in Hdigits. lia. }
  rewrite <- Hvalue at 1. rewrite <- Hdigits at 1. rewrite (pad_of_uint d Hd).
  unfold d, Decimal.rev. rewrite string_of_revapp_little_digits.
  apply append_empty.
Qed.

Lemma length_append (a b : string) :
  String.length (a ++ b) = (String.length a + String.length b)%nat.
Proof. induction a as [ | x a IH]; cbn; [reflexivity | f_equal; exact IH]. Qed.

Lemma substring_prefix (a b : string) : substring 0 (String.length a) (a ++ b) = a.
Proof. induction a as [ | x a IH]; cbn; [destruct b; reflexivity | f_equal; exact IH]. Qed.

Lemma drop_last_append (a b : string) : drop_last (String.length b) (a ++ b) = a.
Proof.
  unfold drop_last. rewrite length_append.
  replace (String.length a + String.length b - String.length b)%nat
    with (String.length a) by lia.
  apply substring_prefix.
Qed.

Lemma decimal_thousands n :
  exists low, String.length low = 3%nat
              /\ decimal 6 n = (decimal 3 (n / 1000) ++ low)%string.
Proof.
  exists (String (ascii_of_nat (48 + (n / 10 / 10) mod 10))
            (String (ascii_of_nat (48 + (n / 10) mod 10))
               (String (ascii_of_nat (48 + n mod 10)) EmptyString))).
  split; [reflexivity | ].
  change (decimal 6 n)
    with (((decimal 3 (n / 10 / 10 / 10)
              ++ String (ascii_of_nat (48 + (n / 10 / 10) mod 10)) EmptyString)
             ++ String (ascii_of_nat (48 + (n / 10) mod 10)) EmptyString)
            ++ String (ascii_of_nat (48 + n mod 10)) EmptyString)%string.
  rewrite !Nat.Div0.div_div. change (10 * 10 * 10)%nat with 1000%nat.
  rewrite !append_assoc. reflexivity.
Qed.

(** The timestamp of a name: the date, the time of day and the
    milliseconds of the clock reading. *)
Lemma stamp_of_datetime d :
  is_datetime d ->
  drop_last 3 (strftime_stamp d)
  = (decimal 4 (year d) ++ decimal 2 (month d) ++ decimal 2 (day d) ++ "_"
     ++ decimal 2 (hour d) ++ decimal 2 (minute d) ++ decimal 2 (second d) ++ "_"
     ++ decimal 3 (microsecond d / 1000))%string.
Proof.
  intros (Hy & Hmo & Hd & Hh & Hmi & Hs & Hus). unfold strftime_stamp.
  assert (H2 : forall n, (n < 60)%nat -> pad 2 n = decimal 2 n).
  { intros n Hn. apply pad_decimal; [lia | ]. change (10 ^ 2)%nat with 100%nat. lia. }
  rewrite (pad_decimal 4 (year d)) by (try apply Hy; lia).
  rewrite (pad_decimal 6 (microsecond d)) by (try apply Hus; lia).
  rewrite !H2 by lia.
  destruct (decimal_thousands (microsecond d)) as (low & Hlen & ->).
  rewrite <- Hlen.
  repeat rewrite <- append_assoc. apply drop_last_append.
Qed.

Lemma stamp_char_digit c : is_stamp_char c = true -> In c (chars "0123456789_").
Proof.
  destruct c as [[] [] [] [] [] [] [] []]; intros H; try discriminate H;
    cbn; repeat (first [left; reflexivity | right]).
Qed.

Lemma generate_filename_run W text (st : store CatCloudBackup) :
  _generate_filename W text st
  = (Ok (fold_left (fun name char => replace char "_" name) forbidden_chars text
           ++ "_" ++ drop_last 3 (strftime_stamp (clock W (trace st))) ++ ".jpg")%string,
     mkStore (obj st) (trace st ++ [EvNow])).
Proof. reflexivity. Qed.

(** C9.  The name [_generate_filename] returns is the text with every
    space, slash, backslash, colon, star, question mark, double quote,
    angle bracket and bar replaced by an underscore and every other
    character kept, followed by an underscore, a timestamp and ".jpg"; none
    of those ten characters occurs anywhere in the name.  The timestamp is
    made of digits and underscores, and for a clock reading that is a date
    and a time of day it is YYYYMMDD_HHMMSS_mmm: the year in four digits, the
    month, day, hour, minute and second in two digits each and the
    milliseconds in three. *)
Theorem generate_filename_is_clean W text (st : store CatCloudBackup) :
  let unsafe := [" "; "/"; "092"; ":"; "*"; "?"; "034"; "<"; ">"; "|"]%char in
  let now := clock W (trace st) in
  exists clean stamp,
    result (_generate_filename W text) st = Ok (clean ++ "_" ++ stamp ++ ".jpg")%string
    /\ chars clean
       = map (fun c => if existsb (Ascii.eqb c) unsafe then "_"%char else c) (chars text)
    /\ (forall c, In c unsafe ->
          ~ In c (chars (clean ++ "_" ++ stamp ++ ".jpg")%string))
    /\ Forall (fun c => In c (chars "0123456789_")) (chars stamp)
    /\ (is_datetime now ->
        stamp
        = (decimal 4 (year now) ++ decimal 2 (month now) ++ decimal 2 (day now) ++ "_"
           ++ decimal 2 (hour now) ++ decimal 2 (minute now) ++ decimal 2 (second now)
           ++ "_" ++ decimal 3 (microsecond now / 1000))%string).
Proof.
  intros unsafe now.
  exists (fold_left (fun name char => replace char "_" name) forbidden_chars text),
    (drop_last 3 (strftime_stamp now)).
  unfold result. rewrite generate_filename_run. cbn [fst]. fold now.
  split; [reflexivity | ].
  assert (Hclean : chars (fold_left (fun name char => replace char "_" name)
                            forbidden_chars text) = map sanitize (chars text)).
  { rewrite fold_replace_chars. apply map_ext. exact sanitize_is_the_fold. }
  split; [exact Hclean | ].
  assert (Hsafe : Forall (fun c => is_forbidden c = false)
                    (chars (fold_left (fun name char => replace char "_" name)
                              forbidden_chars text
                            ++ "_" ++ drop_last 3 (strftime_stamp now)
                            ++ ".jpg")%string)).
  { rewrite chars_app, Hclean, chars_app, chars_app.
    repeat (apply Forall_app; split).
    - apply Forall_forall. intros c Hc. apply in_map_iff in Hc as (x & <- & _).
      apply sanitize_safe.
    - repeat constructor.
    - eapply Forall_impl; [ | apply stamp_chars]. exact stamp_char_safe.
    - repeat constructor. }
  split; [ | split; [ | apply stamp_of_datetime]].
  2: { eapply Forall_impl; [ | apply stamp_chars]. exact stamp_char_digit. }
  intros c Hc Hin. rewrite Forall_forall in Hsafe. specialize (Hsafe c Hin).
  unfold is_forbidden in Hsafe.
  assert (Ht : existsb (Ascii.eqb c) forbidden_chars = true).
  { apply existsb_exists. exists c. split; [exact Hc | apply Ascii.eqb_refl]. }
  congruence.
Qed.

(** C9 on a run: a caption with a space, a slash and a question mark. *)
Example caption_becomes_filename :
  result (_generate_filename never_done "hi there/cat?") fresh
  = Ok "hi_there_cat__20240517_123045_123.jpg"%string
  /\ decimal 4 2024 = "2024"%string /\ decimal 2 5 = "05"%string
  /\ decimal 3 (123456 / 1000) = "123"%string.
Proof. vm_compute. repeat split; reflexivity. Qed.

(** ** Running monadic code step by step *)

Lemma bind_ok {S A B} (m : M S A) (k : A -> M S B) st a st' :
  m st = (Ok a, st') -> bind m k st = k a st'.
Proof. intros H. unfold bind. rewrite H. reflexivity. Qed.

Lemma bind_raised {S A B} (m : M S A) (k : A -> M S B) st e st' :
  m st = (Raised e, st') -> bind m k st = (Raised e, st').
Proof. intros H. unfold bind. rewrite H. reflexivity. Qed.

Lemma try_ok {S A} (m : M S A) h st a st' :
  m st = (Ok a, st') -> try_except m h st = (Ok a, st').
Proof. intros H. unfold try_except. rewrite H. reflexivity. Qed.

Lemma send_run W {S} req (st : store S) :
  send W req st
  = (match http_reply W (trace st) req with
     | Responded r => Ok r
     | Failed f msg => Raised (new_exn (class_of_failure f) msg)
     end,
     mkStore (obj st) (trace st ++ [EvHttp req (http_reply W (trace st) req)])).
Proof.
  unfold send, bind, history, emit. cbn [trace obj].
  destruct (http_reply W (trace st) req); reflexivity.
Qed.

Lemma raise_for_status_ok {S} r (st : store S) :
  is_http_error r = false -> raise_for_status r st = (Ok tt, st).
Proof.
  unfold raise_for_status, is_http_error. split_status r; intros H;
    try discriminate; reflexivity.
Qed.

Lemma raise_for_status_error {S} r (st : store S) :
  is_http_error r = true ->
  exists msg, raise_for_status r st = (Raised (mkExn HTTPError msg (Some r)), st).
Proof.
  unfold raise_for_status, is_http_error. split_status r; intros H;
    try discriminate; eexists; reflexivity.
Qed.

Section TwoMoreRequests.

Variable W : World.

Lemma get_upload_url_shape remote_path (st : store CatCloudBackup) :
  exists res,
    _get_upload_url W remote_path st
    = (res, mkStore (obj st)
              (trace st ++ [EvHttp (upload_url_request (obj st) remote_path)
                              (http_reply W (trace st)
                                 (upload_url_request (obj st) remote_path))])).
Proof.
  unfold _get_upload_url, _get_authorization_headers.
  run_monad. fold (auth_headers (obj st)). fold (upload_url_request (obj st) remote_path).
  destruct (http_reply W (trace st) (upload_url_request (obj st) remote_path))
    as [f msg | r].
  - destruct f; cbn -[String.append]; eauto.
  - split_status r; cbn -[String.append]; eauto.
    all: destruct (body r) as [[ | b | n | s | items | fields] | ];
      cbn -[String.append]; eauto.
    all: destruct (dict_lookup "href" fields); cbn -[String.append]; eauto.
Qed.

Lemma get_file_metadata_shape remote_path (st : store CatCloudBackup) :
  exists res,
    _get_file_metadata W remote_path st
    = (res, mkStore (obj st)
              (trace st ++ [EvHttp (metadata_request (obj st) remote_path)
                              (http_reply W (trace st)
                                 (metadata_request (obj st) remote_path))])).
Proof.
  unfold _get_file_metadata, _get_authorization_headers.
  run_monad. fold (auth_headers (obj st)). fold (metadata_request (obj st) remote_path).
  destruct (http_reply W (trace st) (metadata_request (obj st) remote_path))
    as [f msg | r].
  - destruct f; cbn -[String.append]; eauto.
  - split_status r; cbn -[String.append]; eauto.
    all: destruct (body r); cbn -[String.append]; eauto.
Qed.

Lemma metadata_stage_shape file_data filename remote_path (st : store CatCloudBackup) :
  exists res tail,
    (file_metadata <- _get_file_metadata W remote_path ;;
     size <- py_get file_metadata "size" (JInt (len file_data)) ;;
     now1 <- datetime_now W ;;
     created <- py_get file_metadata "created" (JStr (isoformat now1)) ;;
     now2 <- datetime_now W ;;
     modified <- py_get file_metadata "modified" (JStr (isoformat now2)) ;;
     ret (JObj [("name", JStr filename);
                ("path", JStr remote_path);
                ("size", size);
                ("created", created);
                ("modified", modified)])) st
    = (res, mkStore (obj st) (trace st ++ tail))
    /\ metadata_stage (obj st) filename remote_path res tail.
Proof.
  destruct (get_file_metadata_shape remote_path st) as (res1 & Hrun).
  unfold metadata_stage.
  destruct res1 as [file_metadata | e].
  - rewrite (bind_ok _ _ _ _ _ Hrun).
    destruct file_metadata as [ | b | n | s | items | fields];
      try (cbn -[String.append]; do 2 eexists; split; [reflexivity | ];
           eexists; left; split; [reflexivity | eauto]; fail).
    unfold bind, py_get, datetime_now, history, emit, ret.
    cbn -[String.append isoformat len dict_lookup].
    do 2 eexists. split.
    + rewrite <- !app_assoc. cbn [app]. reflexivity.
    + eexists. right. split; [reflexivity | ]. unfold backup_record. eauto.
  - rewrite (bind_raised _ _ _ _ _ Hrun). do 2 eexists. split; [reflexivity | ].
    eexists. left. split; [reflexivity | eauto].
Qed.

Lemma error_is_not_accepted r : is_http_error r = true -> (status_code r =? 202) = false.
Proof.
  unfold is_http_error. intros H. apply andb_prop in H as [H _].
  apply Z.leb_le in H. apply Z.eqb_neq. lia.
Qed.

(** The stage between the upload PUT and the metadata: what it appends and
    how it ends, for a PUT answer [r] that is no HTTP error. *)
Lemma polling_stage_shape r (st : store CatCloudBackup) :
  is_http_error r = false ->
  exists res new,
    (if status_code r =? 202 then
       (decoded <- response_json r ;;
        operation_url <- py_get decoded "href" JNull ;;
        if truthy operation_url then
          (print "⏳ Файл принят в обработку. Ожидаю завершения загрузки..." ;;
           _wait_for_operation_completion W operation_url)
        else ret tt)
     else ret tt) st
    = (res, mkStore (obj st) (trace st ++ new))
    /\ ((new = [] /\ res = Ok tt /\ goes_straight_on (Responded r) = true)
        \/ (new = [] /\ (exists e, res = Raised e)
            /\ accepted (Responded r) = false /\ goes_straight_on (Responded r) = false)
        \/ (accepted (Responded r) = true
            /\ exists op polls,
                 new = EvPrint HOURGLASS_LINE :: polls
                 /\ Forall net_or_sleep polls
                 /\ Forall (eq (status_request (obj st) op)) (http_requests polls)
                 /\ http_requests polls <> []
                 /\ (List.length (http_requests polls) <= 10)%nat
                 /\ (res = Ok tt \/ exists e, res = Raised e))).
Proof.
  intros Hok. unfold goes_straight_on, accepted. rewrite Hok. cbn [negb andb].
  destruct (status_code r =? 202) eqn:E202; cbn [negb andb orb].
  2: { exists (Ok tt), []. rewrite app_nil_r. destruct st. cbn. auto. }
  unfold response_json.
  destruct (body r) as [[ | b | n | s | items | fields] | ];
    try (eexists (Raised _), [];
         rewrite app_nil_r; destruct st; cbn; split; [reflexivity | right; left; eauto 6]; fail).
  - (* what is left is a JSON object *)
    unfold bind at 1, ret at 1. unfold bind at 1, py_get at 1, ret at 1.
    destruct (dict_lookup "href" fields) as [v | ].
    + destruct (truthy v) eqn:Ev; cbn [negb].
      * unfold bind, print, emit. cbn [trace obj].
        destruct (wait_shape W v (mkStore (obj st) (trace st ++ [EvPrint HOURGLASS_LINE])))
          as (res & polls & Hrun & Hkind & Hreq & Hlen & Hne & _).
        change (EvPrint
                  "⏳ Файл принят в обработку. Ожидаю завершения загрузки...")
          with (EvPrint HOURGLASS_LINE).
        rewrite Hrun. cbn [obj trace] in *. rewrite <- app_assoc. cbn [app].
        exists res, (EvPrint HOURGLASS_LINE :: polls). split.
        -- destruct res; reflexivity.
        -- right. right. split; [reflexivity | ]. exists v, polls. conj; auto.
           destruct res as [[] | e]; eauto.
      * exists (Ok tt), []. rewrite app_nil_r. destruct st. cbn. auto.
    + exists (Ok tt), []. rewrite app_nil_r. destruct st. cbn. auto.
Qed.

End TwoMoreRequests.

(** ** [_upload_file_to_disk] *)

Lemma try_rewrap {S A} (m : M S A) h st res st' :
  m st = (res, st') ->
  (forall e st0, exists e', h e st0 = (Raised e', st0)) ->
  exists res',
    try_except m h st = (res', st')
    /\ (forall a, res = Ok a -> res' = Ok a)
    /\ (forall e, res = Raised e -> exists e', res' = Raised e').
Proof.
  intros Hm Hh. unfold try_except. rewrite Hm. destruct res as [a | e].
  - exists (Ok a). conj; auto. intros e H. discriminate.
  - destruct (Hh e st') as [e' He']. exists (Raised e'). conj; auto.
    + intros a H. discriminate.
    + eauto.
Qed.

Lemma metadata_stage_rewrap self filename remote_path res res' tail :
  metadata_stage self filename remote_path res tail ->
  (forall a, res = Ok a -> res' = Ok a) ->
  (forall e, res = Raised e -> exists e', res' = Raised e') ->
  metadata_stage self filename remote_path res' tail.
Proof.
  intros [out [[-> [e ->]] | [-> (size & created & modified & ->)]]] Hok Hraised;
    exists out.
  - left. split; [reflexivity | ]. eauto.
  - right. split; [reflexivity | ]. exists size, created, modified. eauto.
Qed.

Lemma upload_run_rewrap self file_data filename remote_path res res' new :
  upload_run self file_data filename remote_path res new ->
  (forall a, res = Ok a -> res' = Ok a) ->
  (forall e, res = Raised e -> exists e', res' = Raised e') ->
  upload_run self file_data filename remote_path res' new.
Proof.
  intros H Hok Hraised.
  destruct H as [(o1 & -> & e & ->)
                | [(o1 & u & o2 & -> & (e & ->) & Ha & Hg)
                  | [(o1 & u & o2 & op & polls & tail & -> & Ha & Hk & Hr & Hn & Hl & Ht)
                    | (o1 & u & o2 & tail & -> & Hg & Hm)]]].
  - left. eauto.
  - right. left. exists o1, u, o2. conj; eauto.
  - right. right. left. exists o1, u, o2, op, polls, tail. conj; auto.
    destruct Ht as [[-> [e ->]] | Hm].
    + left. eauto.
    + right. eapply metadata_stage_rewrap; eauto.
  - right. right. right. exists o1, u, o2, tail. conj; auto.
    eapply metadata_stage_rewrap; eauto.
Qed.

Lemma upload_shape W file_data filename (st : store CatCloudBackup) :
  exists res new,
    _upload_file_to_disk W file_data filename st
    = (res, mkStore (obj st) (trace st ++ new))
    /\ upload_run (obj st) file_data filename
         ("/" ++ _group_name (obj st) ++ "/" ++ filename)%string res new.
Proof.
  unfold _upload_file_to_disk. unfold bind at 1, get_self at 1.
  set (remote_path := ("/" ++ _group_name (obj st) ++ "/" ++ filename)%string).
  match goal with
  | |- context [try_except ?m ?h] =>
      assert (Hbody : exists res new,
                 m st = (res, mkStore (obj st) (trace st ++ new))
                 /\ upload_run (obj st) file_data filename remote_path res new);
      [ | destruct Hbody as (res & new & Hrun & Hshape);
          destruct (try_rewrap m h st res _ Hrun) as (res' & Hrun' & Hok & Hraised);
          [ intros e st0; destruct (isinstance e Timeout);
            [ | destruct (isinstance e RequestException)]; eexists; reflexivity
          | exists res', new; split; [exact Hrun' | ];
            eapply upload_run_rewrap; eauto ] ]
  end.
  destruct (get_upload_url_shape W remote_path st) as (res1 & H1).
  destruct res1 as [u | e].
  2: { rewrite (bind_raised _ _ _ _ _ H1). do 2 eexists. split; [reflexivity | ].
       left. eauto. }
  rewrite (bind_ok _ _ _ _ _ H1). clear H1.
  set (o1 := http_reply W (trace st) (upload_url_request (obj st) remote_path)).
  set (st1 := mkStore (obj st) (trace st ++ [EvHttp (upload_url_request (obj st) remote_path) o1])).
  unfold requests_put. fold (upload_request u file_data).
  pose proof (send_run W (upload_request u file_data) st1) as H2.
  set (o2 := http_reply W (trace st1) (upload_request u file_data)) in *.
  assert (Htr : forall tail,
             (trace st ++ [EvHttp (upload_url_request (obj st) remote_path) o1])
               ++ EvHttp (upload_request u file_data) o2 :: tail
             = trace st ++ EvHttp (upload_url_request (obj st) remote_path) o1
                 :: EvHttp (upload_request u file_data) o2 :: tail).
  { intros tail. rewrite <- app_assoc. reflexivity. }
  destruct o2 as [f msg | r] eqn:Eo2.
  { rewrite (bind_raised _ _ _ _ _ H2). unfold st1; cbn [obj trace]. do 2 eexists.
    split; [rewrite <- app_assoc; reflexivity | ].
    right. left. exists o1, u, (Failed f msg). conj; eauto. }
  rewrite (bind_ok _ _ _ _ _ H2). clear H2.
  set (st2 := mkStore (obj st1) (trace st1 ++ [EvHttp (upload_request u file_data) (Responded r)])).
  destruct (is_http_error r) eqn:Eerr.
  { destruct (raise_for_status_error r st2 Eerr) as [msg H3].
    rewrite (bind_raised _ _ _ _ _ H3). unfold st2, st1; cbn [obj trace]. do 2 eexists.
    split; [rewrite <- app_assoc; reflexivity | ].
    right. left. exists o1, u, (Responded r).
    unfold accepted, goes_straight_on. rewrite Eerr, (error_is_not_accepted r Eerr).
    conj; eauto. }
  rewrite (bind_ok _ _ _ _ _ (raise_for_status_ok r st2 Eerr)).
  destruct (polling_stage_shape W r st2 Eerr) as (res4 & new4 & H4 & Hcases).
  destruct Hcases as [(-> & -> & Hg)
                     | [(-> & (e & ->) & Ha & Hg)
                       | (Ha & op & polls & -> & Hk & Hr & Hn & Hl & Hres)]].
  - (* straight on *)
    rewrite (bind_ok _ _ _ _ _ H4). rewrite app_nil_r. cbv beta.
    destruct (metadata_stage_shape W file_data filename remote_path
                (mkStore (obj st2) (trace st2)))
      as (res5 & tail & H5 & Hm).
    rewrite H5. unfold st2, st1; cbn [obj trace]. rewrite <- app_assoc. cbn [app]. rewrite Htr.
    do 2 eexists. split; [reflexivity | ].
    right. right. right. exists o1, u, (Responded r), tail. conj; auto.
  - (* the answer cannot be read *)
    rewrite (bind_raised _ _ _ _ _ H4). rewrite app_nil_r.
    unfold st2, st1; cbn [obj trace]. rewrite Htr.
    do 2 eexists. split; [reflexivity | ].
    right. left. exists o1, u, (Responded r). conj; eauto.
  - (* polled *)
    destruct Hres as [-> | [e ->]].
    + rewrite (bind_ok _ _ _ _ _ H4). cbv beta.
      destruct (metadata_stage_shape W file_data filename remote_path
                  (mkStore (obj st2) (trace st2 ++ EvPrint HOURGLASS_LINE :: polls)))
        as (res5 & tail & H5 & Hm).
      rewrite H5. unfold st2, st1 in *; cbn [obj trace] in *. rewrite <- !app_assoc. cbn [app].
      do 2 eexists. split; [reflexivity | ].
      right. right. left. exists o1, u, (Responded r), op, polls, tail. conj; auto.
    + rewrite (bind_raised _ _ _ _ _ H4). unfold st2, st1 in *; cbn [obj trace] in *.
      rewrite <- !app_assoc. cbn [app].
      exists (Raised e), (EvHttp (upload_url_request (obj st) remote_path) o1
                          :: EvHttp (upload_request u file_data) (Responded r)
                          :: EvPrint HOURGLASS_LINE :: polls ++ []).
      split; [rewrite app_nil_r; reflexivity | ].
      right. right. left. exists o1, u, (Responded r), op, polls, []. conj; eauto.
Qed.

Lemma in_http_requests req out tr : In (EvHttp req out) tr -> In req (http_requests tr).
Proof.
  induction tr as [ | e tr IH]; [contradiction | ].
  intros [-> | H]; [left; reflexivity | ].
  destruct e; cbn; auto.
Qed.

Lemma some_http_request tr :
  http_requests tr <> [] -> exists req out, In (EvHttp req out) tr.
Proof.
  induction tr as [ | e tr IH]; [intros H; exfalso; apply H; reflexivity | ].
  destruct e; cbn [http_requests]; intros H;
    try (destruct (IH H) as (req' & out' & Hin); exists req', out'; right; exact Hin).
  exists req, out. left. reflexivity.
Qed.

Lemma only_status_requests req0 tr req out :
  Forall (eq req0) (http_requests tr) -> In (EvHttp req out) tr -> req = req0.
Proof.
  intros Hall Hin. apply in_http_requests in Hin.
  rewrite Forall_forall in Hall. symmetry. apply Hall. exact Hin.
Qed.

Lemma straight_on_is_not_accepted out : goes_straight_on out = true -> accepted out = false.
Proof.
  destruct out as [f msg | r]; [reflexivity | ]. unfold goes_straight_on.
  destruct (accepted (Responded r)); [ | reflexivity].
  rewrite andb_false_r. discriminate.
Qed.

(** Events of different kinds, and requests of different shapes, are
    different. *)
Ltac mismatch H :=
  solve [ discriminate H
        | unfold status_request, upload_request, upload_url_request, metadata_request,
            mkdir_request, download_request in H; discriminate H ].

Ltac in_metadata_stage Hm H :=
  let out := fresh "out" in
  destruct Hm as [out [[-> _] | [-> _]]];
  repeat (destruct H as [H | H]; [try mismatch H | ]); try contradiction.

(** C4 as the code has it.  In a run of [_upload_file_to_disk], a status
    request is sent if and only if the upload PUT was answered with status
    202 and a JSON object whose "href" is a true value (present and not
    empty).  After a PUT answer that is no HTTP error and either has another
    status or is a JSON object without a true "href", the very next event is
    the metadata request, and no status request is sent at all. *)
Theorem polling_iff_accepted_with_href W file_data filename (st : store CatCloudBackup) :
  let new := events (_upload_file_to_disk W file_data filename) st in
  let remote_path := ("/" ++ _group_name (obj st) ++ "/" ++ filename)%string in
  ((exists op out, In (EvHttp (status_request (obj st) op) out) new)
   <-> (exists u out, In (EvHttp (upload_request u file_data) out) new
                      /\ accepted out = true))
  /\ (forall u out,
        In (EvHttp (upload_request u file_data) out) new ->
        goes_straight_on out = true ->
        exists o1 o3 rest,
          new = EvHttp (upload_url_request (obj st) remote_path) o1
                :: EvHttp (upload_request u file_data) out
                :: EvHttp (metadata_request (obj st) remote_path) o3 :: rest
          /\ http_requests rest = []).
Proof.
  intros new remote_path.
  destruct (upload_shape W file_data filename st) as (res & new' & Hrun & Hshape).
  apply events_of_run in Hrun as (_ & _ & _ & Hev).
  subst new. rewrite Hev. clear Hev. fold remote_path in Hshape.
  destruct Hshape as [(o1 & -> & _)
                     | [(o1 & u & o2 & -> & _ & Ha & Hg)
                       | [(o1 & u & o2 & op & polls & tail & -> & Ha & Hk & Hr & Hn & Hl & Ht)
                         | (o1 & u & o2 & tail & -> & Hg & Hm)]]].
  - (* no upload URL *)
    split; [split | ].
    + intros (op & out & [H | []]). mismatch H.
    + intros (u & out & [H | []] & _). mismatch H.
    + intros u out [H | []]. mismatch H.
  - (* the PUT is refused *)
    split; [split | ].
    + intros (op & out & [H | [H | []]]); mismatch H.
    + intros (u' & out & [H | [H | []]] & Hacc); [mismatch H | ].
      injection H as <- <-. congruence.
    + intros u' out [H | [H | []]] Hgo; [mismatch H | ].
      injection H as <- <-. congruence.
  - (* polled *)
    split; [split | ].
    + intros _. exists u, o2. split; [right; left; reflexivity | exact Ha].
    + intros _. destruct (some_http_request polls Hn) as (req & out & Hin).
      exists op, out. rewrite <- (only_status_requests _ _ _ _ Hr Hin).
      do 3 right. apply in_or_app. left. exact Hin.
    + intros u' out [H | [H | [H | H]]] Hgo; try mismatch H.
      * injection H as <- <-. apply straight_on_is_not_accepted in Hgo. congruence.
      * apply in_app_or in H as [H | H].
        -- apply (only_status_requests _ _ _ _ Hr) in H. mismatch H.
        -- destruct Ht as [[-> _] | Hm]; [contradiction | ].
           in_metadata_stage Hm H.
  - (* straight on *)
    pose proof (straight_on_is_not_accepted _ Hg) as Ha.
    split; [split | ].
    + intros (op & out & [H | [H | H]]); try mismatch H. in_metadata_stage Hm H.
    + intros (u' & out & [H | [H | H]] & Hacc); try mismatch H.
      * injection H as <- <-. congruence.
      * in_metadata_stage Hm H.
    + intros u' out [H | [H | H]] Hgo; try mismatch H.
      * injection H as <- <-.
        destruct Hm as [o3 [[-> _] | [-> _]]]; do 3 eexists; split; reflexivity.
      * in_metadata_stage Hm H.
Qed.

(** C4 at work: an upload accepted with a true "href" is polled. *)
Lemma polling_iff_accepted_with_href_witness :
  exists op out,
    In (EvHttp (status_request (obj fresh) op) out)
      (events (_upload_file_to_disk accepted_then_done "meow" "cat.jpg") fresh).
Proof.
  pose proof (polling_iff_accepted_with_href accepted_then_done "meow" "cat.jpg" fresh)
    as H.
  cbv zeta in H. destruct H as [[_ H] _]. apply H.
  exists (JStr "https://uploader/1"), (json_reply 202 (JObj [("href", JStr "https://op/7")])).
  split; [vm_compute; right; left; reflexivity | reflexivity].
Defined.

(** C4 as the claim states it fails: the upload PUT is answered with status
    202 and a body that has an "href" field, yet no status request is sent,
    because the field is an empty string. *)
Lemma accepted_with_empty_href_is_not_polled :
  let new := events (_upload_file_to_disk empty_href "meow" "cat.jpg") fresh in
  (exists u out, In (EvHttp (upload_request u "meow") out) new
                 /\ has_href_field out = true)
  /\ ~ (exists op out, In (EvHttp (status_request (obj fresh) op) out) new).
Proof.
  split.
  - exists (JStr "https://uploader/1"), (json_reply 202 (JObj [("href", JStr "")])).
    split; [vm_compute; right; left; reflexivity | reflexivity].
  - intros (op & out & H). vm_compute in H.
    repeat (destruct H as [H | H]; [discriminate H | ]). contradiction.
Qed.

(** The caller's side of C8: an upload whose operation is still in progress
    after the tenth poll goes on to the metadata and returns a record, as
    after a success. *)
Example unfinished_upload_is_recorded :
  let run := _upload_file_to_disk accepted_never_done "meow" "cat.jpg" in
  result run fresh
  = Ok (backup_record "cat.jpg" "/cats/cat.jpg" (JInt 4)
          (JStr "2024-05-17T12:30:45.123456") (JStr "2024-05-17T12:30:45.123456"))
  /\ List.length (http_requests (events run fresh)) = 13%nat.
Proof. vm_compute. split; reflexivity. Qed.

(** An upload accepted with status 202 and an empty body: the body cannot be
    decoded, so the upload ends in a [RequestException] after two requests,
    without a metadata request. *)
Example accepted_without_body_raises :
  let run := _upload_file_to_disk accepted_without_body "meow" "cat.jpg" in
  raises_request_exception (result run fresh)
  /\ List.length (http_requests (events run fresh)) = 2%nat.
Proof. split; [eexists; vm_compute; reflexivity | vm_compute; reflexivity]. Qed.

(** ** [backup_cat_image] *)

Lemma backup_shape W text (st : store CatCloudBackup) :
  let self := obj st in
  let folder := ("/" ++ _group_name self)%string in
  let filename :=
    (fold_left (fun name char => replace char "_" name) forbidden_chars text
       ++ "_" ++ drop_last 3
                   (strftime_stamp
                      (clock W (trace st
                                  ++ [EvHttp (mkdir_request self folder)
                                        (http_reply W (trace st) (mkdir_request self folder));
                                      EvHttp (download_request text)
                                        (http_reply W
                                           (trace st
                                              ++ [EvHttp (mkdir_request self folder)
                                                    (http_reply W (trace st)
                                                       (mkdir_request self folder))])
                                           (download_request text))])))
       ++ ".jpg")%string in
  exists res new,
    backup_cat_image W text st
    = (res, mkStore (match res with
                     | Ok record => with_record self record
                     | Raised _ => self
                     end) (trace st ++ new))
    /\ (forall record, res = Ok record ->
        exists o1 r2 uploading,
          new = EvHttp (mkdir_request self folder) o1
                :: EvHttp (download_request text) (Responded r2) :: EvNow :: uploading
          /\ upload_run self (content r2) filename (folder ++ "/" ++ filename)%string
               (Ok record) uploading).
Proof.
  intros self folder filename.
  unfold backup_cat_image. unfold bind at 1, get_self at 1.
  fold self. fold folder.
  destruct (create_remote_directory_shape W folder st) as (res1 & H1 & _).
  fold self in H1.
  set (o1 := http_reply W (trace st) (mkdir_request self folder)) in *.
  destruct res1 as [[] | e].
  2: { rewrite (bind_raised _ _ _ _ _ H1). exists (Raised e). eexists.
       split; [reflexivity | ]. intros record H. discriminate. }
  rewrite (bind_ok _ _ _ _ _ H1). clear H1.
  set (st1 := mkStore (obj st) (trace st ++ [EvHttp (mkdir_request self folder) o1])).
  destruct (download_cat_image_shape W text st1) as (res2 & H2 & Hres2).
  set (o2 := http_reply W (trace st1) (download_request text)) in *.
  destruct res2 as [image | e].
  2: { rewrite (bind_raised _ _ _ _ _ H2). exists (Raised e). eexists.
       split; [unfold st1; cbn [obj trace]; rewrite <- app_assoc; reflexivity | ].
       intros record H. discriminate. }
  rewrite (bind_ok _ _ _ _ _ H2). clear H2.
  set (st2 := mkStore (obj st1) (trace st1 ++ [EvHttp (download_request text) o2])).
  rewrite (bind_ok _ _ _ _ _ (generate_filename_run W text st2)).
  assert (Hname : (fold_left (fun name char => replace char "_" name) forbidden_chars text
                     ++ "_" ++ drop_last 3 (strftime_stamp (clock W (trace st2))) ++ ".jpg")%string
                  = filename).
  { unfold filename, st2, st1, o2, o1, st1. cbn [obj trace]. rewrite <- app_assoc.
    reflexivity. }
  rewrite Hname. clear Hname.
  set (st3 := mkStore (obj st2) (trace st2 ++ [EvNow])).
  destruct (upload_shape W image filename st3) as (res4 & uploading & H4 & Hup).
  assert (Htrace : trace st3 ++ uploading
                   = trace st ++ EvHttp (mkdir_request self folder) o1
                       :: EvHttp (download_request text) o2 :: EvNow :: uploading).
  { unfold st3, st2, st1. cbn [obj trace]. rewrite <- !app_assoc. reflexivity. }
  destruct res4 as [record | e].
  - rewrite (bind_ok _ _ _ _ _ H4). cbv beta.
    unfold bind, get_self, set_self, ret. cbn [obj trace]. rewrite Htrace.
    exists (Ok record). eexists. split; [reflexivity | ].
    intros record' H. injection H as <-.
    destruct o2 as [f msg | r2]; [destruct Hres2; discriminate | ].
    destruct (is_http_error r2); [destruct Hres2; discriminate | ].
    injection Hres2 as ->. exists o1, r2, uploading.
    split; [reflexivity | exact Hup].
  - rewrite (bind_raised _ _ _ _ _ H4). cbn [obj]. rewrite Htrace.
    exists (Raised e). eexists. split; [reflexivity | ].
    intros record H. discriminate.
Qed.

(** C10.  A run of [backup_cat_image] that returns a record leaves
    [_uploaded_files_info] with exactly that record appended; a run that
    raises, at whatever step, leaves the object as it was.  Token and folder
    name never change. *)
Theorem backup_appends_one_record_or_nothing W text (st : store CatCloudBackup) :
  match result (backup_cat_image W text) st with
  | Ok record =>
      _uploaded_files_info (obj (final (backup_cat_image W text) st))
      = _uploaded_files_info (obj st) ++ [record]
      /\ _yandex_token (obj (final (backup_cat_image W text) st)) = _yandex_token (obj st)
      /\ _group_name (obj (final (backup_cat_image W text) st)) = _group_name (obj st)
  | Raised _ => obj (final (backup_cat_image W text) st) = obj st
  end.
Proof.
  destruct (backup_shape W text st) as (res & new & Hrun & _).
  unfold result, final. rewrite Hrun. cbn [fst snd obj].
  destruct res as [record | e]; [ | reflexivity].
  unfold with_record. cbn. auto.
Qed.

(** C10 on two runs: the happy one appends its record, one whose upload is
    refused appends nothing. *)
Example one_record_or_none :
  List.length (_uploaded_files_info (obj (final (backup_cat_image happy "hello cat") fresh)))
  = 1%nat
  /\ _uploaded_files_info
       (obj (final (backup_cat_image
                      (scripted [raw_reply 201 ""; raw_reply 200 "JPEGDATA";
                                 json_reply 200 (JObj [("href", JStr "https://uploader/1")]);
                                 raw_reply 507 ""] "")
                      "hello cat") fresh)) = [].
Proof. vm_compute. split; reflexivity. Qed.

(** ** Records and [save_backup_info] *)

Lemma metadata_stage_ok self filename remote_path record tail :
  metadata_stage self filename remote_path (Ok record) tail ->
  exists out size created modified,
    tail = [EvHttp (metadata_request self remote_path) out; EvNow; EvNow]
    /\ record = backup_record filename remote_path size created modified.
Proof.
  intros [out [[_ [e H]] | [-> (size & created & modified & H)]]]; [discriminate | ].
  injection H as ->. eauto 6.
Qed.

(** A run of the upload that returns a record: its events and the record. *)
Lemma upload_run_ok self file_data filename remote_path record new :
  upload_run self file_data filename remote_path (Ok record) new ->
  exists o1 u o2 polling o3 size created modified,
    new = EvHttp (upload_url_request self remote_path) o1
          :: EvHttp (upload_request u file_data) o2
          :: polling ++ [EvHttp (metadata_request self remote_path) o3; EvNow; EvNow]
    /\ record = backup_record filename remote_path size created modified
    /\ (polling = []
        \/ exists op polls,
             polling = EvPrint HOURGLASS_LINE :: polls
             /\ Forall net_or_sleep polls
             /\ Forall (eq (status_request self op)) (http_requests polls)
             /\ (List.length (http_requests polls) <= 10)%nat).
Proof.
  intros [(o1 & _ & e & H)
         | [(o1 & u & o2 & _ & (e & H) & _)
           | [(o1 & u & o2 & op & polls & tail & -> & Ha & Hk & Hr & Hn & Hl & Ht)
             | (o1 & u & o2 & tail & -> & Hg & Hm)]]]; try discriminate.
  - destruct Ht as [[_ [e H]] | Hm]; [discriminate | ].
    apply metadata_stage_ok in Hm as (o3 & size & created & modified & -> & ->).
    exists o1, u, o2, (EvPrint HOURGLASS_LINE :: polls), o3, size, created, modified.
    conj; auto. right. exists op, polls. auto.
  - apply metadata_stage_ok in Hm as (o3 & size & created & modified & -> & ->).
    exists o1, u, o2, [], o3, size, created, modified. auto.
Qed.

Lemma sum_of_items_run {S} xs : forall acc (st : store S),
  exists res,
    sum_of_items "size" acc xs st = (res, st)
    /\ match sum_sizes xs with
       | Some total => res = Ok (acc + total)
       | None => exists e, res = Raised e
       end.
Proof.
  induction xs as [ | x xs IH]; intros acc st.
  - exists (Ok acc). cbn. split; [reflexivity | f_equal; lia].
  - cbn [sum_of_items sum_sizes]. unfold record_size, bind at 1, py_getitem at 1.
    destruct x as [ | b | n | s | items | fields];
      try (eexists; split; [reflexivity | eauto]; fail).
    destruct (dict_lookup "size" fields) as [[ | b | n | s | items | fields'] | ];
      try (eexists; split; [reflexivity | eauto]; fail).
    + unfold ret at 1, bind at 1, py_add at 1, ret at 1.
      destruct (IH (acc + (if b then 1 else 0)) st) as (res & Hrun & Hres).
      exists res. split; [exact Hrun | ].
      destruct (sum_sizes xs); [rewrite Hres; f_equal; lia | exact Hres].
    + unfold ret at 1, bind at 1, py_add at 1, ret at 1.
      destruct (IH (acc + n) st) as (res & Hrun & Hres).
      exists res. split; [exact Hrun | ].
      destruct (sum_sizes xs); [rewrite Hres; f_equal; lia | exact Hres].
Qed.

Lemma save_backup_info_shape W filename (st : store CatCloudBackup) :
  let date := isoformat (clock W (trace st)) in
  exists res new,
    save_backup_info W filename st = (res, mkStore (obj st) (trace st ++ new))
    /\ match sum_sizes (_uploaded_files_info (obj st)) with
       | None => new = [EvNow] /\ exists e, res = Raised e
       | Some total =>
           let err := fs_error W (trace st ++ [EvNow]) filename in
           new = [EvNow; EvWriteJson filename (backup_document (obj st) date total) err]
           /\ match err with
              | None => res = Ok tt
              | Some _ => exists msg, res = Raised (new_exn Exception msg)
              end
       end.
Proof.
  intros date. unfold save_backup_info.
  unfold bind at 1, get_self at 1. unfold bind at 1, datetime_now at 1.
  unfold bind at 1, history at 1. unfold bind at 1, emit at 1, ret at 1.
  cbn [obj trace]. fold date.
  destruct (sum_of_items_run (_uploaded_files_info (obj st)) 0
              (mkStore (obj st) (trace st ++ [EvNow]))) as (res1 & H1 & Hres).
  destruct (sum_sizes (_uploaded_files_info (obj st))) as [total | ].
  - subst res1. rewrite (bind_ok _ _ _ _ _ H1). cbv beta.
    unfold try_except, dump_to_file, bind, history, emit, ret, raise. cbn [obj trace].
    rewrite <- app_assoc. cbn [app]. fold (backup_document (obj st) date total).
    destruct (fs_error W (trace st ++ [EvNow]) filename) as [msg | ];
      cbn -[String.append]; do 2 eexists; (split; [reflexivity | ]);
      split; eauto.
  - destruct Hres as [e ->]. rewrite (bind_raised _ _ _ _ _ H1).
    do 2 eexists. split; [reflexivity | ]. split; eauto.
Qed.

(** Where the code does save its records.  The record a successful upload
    returns has the keys "name", "path", "size", "created" and "modified".
    [save_backup_info] writes at most one file, the one it is given, and the
    document it writes lists all the records of the object, in order, under
    "files"; when the sizes of the records add up and the file can be
    written, it does write it and returns normally. *)
Lemma records_are_saved W :
  (forall file_data filename (st : store CatCloudBackup) record,
      result (_upload_file_to_disk W file_data filename) st = Ok record ->
      exists size created modified,
        record = JObj [("name", JStr filename);
                       ("path", JStr ("/" ++ _group_name (obj st) ++ "/" ++ filename));
                       ("size", size); ("created", created); ("modified", modified)])
  /\ (forall filename (st : store CatCloudBackup) written doc err,
        In (EvWriteJson written doc err) (events (save_backup_info W filename) st) ->
        written = filename
        /\ exists date total,
             doc = JObj [("group_name", JStr (_group_name (obj st)));
                         ("backup_date", JStr date);
                         ("files", JArr (_uploaded_files_info (obj st)));
                         ("total_files",
                          JInt (Z.of_nat (List.length (_uploaded_files_info (obj st)))));
                         ("total_size", JInt total)])
  /\ (forall filename (st : store CatCloudBackup) total,
        sum_sizes (_uploaded_files_info (obj st)) = Some total ->
        fs_error W (trace st ++ [EvNow]) filename = None ->
        result (save_backup_info W filename) st = Ok tt
        /\ events (save_backup_info W filename) st
           = [EvNow;
              EvWriteJson filename
                (backup_document (obj st) (isoformat (clock W (trace st))) total) None]).
Proof.
  conj.
  - intros file_data filename st record H.
    destruct (upload_shape W file_data filename st) as (res & new & Hrun & Hshape).
    unfold result in H. rewrite Hrun in H. cbn [fst] in H. subst res.
    apply upload_run_ok in Hshape
      as (o1 & u & o2 & polling & o3 & size & created & modified & _ & -> & _).
    exists size, created, modified. reflexivity.
  - intros filename st written doc err H.
    destruct (save_backup_info_shape W filename st) as (res & new & Hrun & Hshape).
    apply events_of_run in Hrun as (_ & _ & _ & Hev). rewrite Hev in H.
    destruct (sum_sizes (_uploaded_files_info (obj st))) as [total | ].
    + destruct Hshape as [-> _]. destruct H as [H | [H | []]]; [discriminate | ].
      injection H as <- <- _. split; [reflexivity | ]. do 2 eexists. reflexivity.
    + destruct Hshape as [-> _]. destruct H as [H | []]. discriminate.
  - intros filename st total Hsum Hfs.
    destruct (save_backup_info_shape W filename st) as (res & new & Hrun & Hshape).
    apply events_of_run in Hrun as (Hres & _ & _ & Hev). rewrite Hres, Hev.
    rewrite Hsum in Hshape. cbv zeta in Hshape. rewrite Hfs in Hshape.
    destruct Hshape as [-> ->]. split; reflexivity.
Qed.

(** The happy run: the record of the upload, and the document that
    [save_backup_info] writes after it. *)
Example happy_record_is_saved :
  let record :=
    backup_record "hello_cat_20240517_123045_123.jpg"
      "/cats/hello_cat_20240517_123045_123.jpg" (JInt 8)
      (JStr "2024-05-17T12:30:45+00:00") (JStr "2024-05-17T12:30:46+00:00") in
  let st := final (backup_cat_image happy "hello cat") fresh in
  result (backup_cat_image happy "hello cat") fresh = Ok record
  /\ result (save_backup_info happy "backup_info.json") st = Ok tt
  /\ events (save_backup_info happy "backup_info.json") st
     = [EvNow;
        EvWriteJson "backup_info.json"
          (JObj [("group_name", JStr "cats");
                 ("backup_date", JStr "2024-05-17T12:30:45.123456");
                 ("files", JArr [record]);
                 ("total_files", JInt 1);
                 ("total_size", JInt 8)]) None].
Proof.
  split; [vm_compute; reflexivity | ].
  destruct (records_are_saved happy) as (_ & _ & H).
  apply (H "backup_info.json"%string
           (final (backup_cat_image happy "hello cat") fresh) 8);
    vm_compute; reflexivity.
Qed.

(** C6 at the failing input: the services answer as they should, but the
    metadata of the uploaded file give its "size" as null.  The upload
    succeeds and [backup_cat_image] returns and appends a record whose size is
    [None], not a size; [save_backup_info] then raises a [TypeError] while it
    adds up the sizes, before any file is opened, so the record is never
    serialized: the run of [main] writes nothing and ends with the lines for
    an unexpected error. *)
Example null_size_is_kept_and_never_saved :
  let record :=
    backup_record "hello_cat_20240517_123045_123.jpg"
      "/cats/hello_cat_20240517_123045_123.jpg" JNull
      (JStr "2024-05-17T12:30:45+00:00") (JStr "2024-05-17T12:30:46+00:00") in
  let backup := backup_cat_image null_size "hello cat" in
  let save := save_backup_info null_size "backup_info.json" in
  result backup fresh = Ok record
  /\ In (EvHttp (upload_request (JStr "https://uploader/1") "JPEGDATA") (raw_reply 201 ""))
       (events backup fresh)
  /\ _uploaded_files_info (obj (final backup fresh)) = [record]
  /\ result save (final backup fresh)
     = Raised (new_exn TypeError "unsupported operand type(s) for +: 'int' and 'NoneType'")
  /\ events save (final backup fresh) = [EvNow]
  /\ result (main null_size) start = Ok tt
  /\ filter is_write (events (main null_size) start) = []
  /\ last (removelast (events (main null_size) start)) EvNow
     = EvPrint (newline ++ "❌ Произошла непредвиденная ошибка: "
                  ++ "unsupported operand type(s) for +: 'int' and 'NoneType'")%string.
Proof.
  vm_compute. repeat split; try reflexivity. do 4 right. left. reflexivity.
Qed.

(** ** [main] *)

Lemma workflow_app a b : workflow (a ++ b) = workflow a ++ workflow b.
Proof. apply filter_app. Qed.

(** The workflow events of a poll are its exchanges, all with the status
    URL. *)
Lemma workflow_of_polls req0 polls :
  Forall net_or_sleep polls ->
  Forall (eq req0) (http_requests polls) ->
  Forall (fun e => exists out, e = EvHttp req0 out) (workflow polls)
  /\ List.length (workflow polls) = List.length (http_requests polls).
Proof.
  unfold workflow.
  induction polls as [ | e polls IH]; intros Hk Hr; [split; constructor | ].
  inversion Hk as [ | ? ? He Hk']; subst.
  destruct e; try contradiction; cbn [http_requests] in Hr.
  - inversion Hr as [ | ? ? <- Hr']; subst.
    destruct (IH Hk' Hr') as [IH1 IH2]. cbn. split; [constructor; [eexists; reflexivity | exact IH1] | lia].
  - exact (IH Hk' Hr).
Qed.

Lemma workflow_of_polling self polling :
  polling = []
  \/ (exists op polls,
        polling = EvPrint HOURGLASS_LINE :: polls
        /\ Forall net_or_sleep polls
        /\ Forall (eq (status_request self op)) (http_requests polls)
        /\ (List.length (http_requests polls) <= 10)%nat) ->
  Forall (fun e => exists op out, e = EvHttp (status_request self op) out)
    (workflow polling)
  /\ (List.length (workflow polling) <= 10)%nat.
Proof.
  intros [-> | (op & polls & -> & Hk & Hr & Hl)]; [split; [constructor | cbn; lia] | ].
  destruct (workflow_of_polls _ _ Hk Hr) as [Hall Hlen].
  change (workflow (EvPrint HOURGLASS_LINE :: polls)) with (workflow polls).
  split; [ | lia].
  eapply Forall_impl; [ | exact Hall]. intros e [out ->]. eauto.
Qed.

Lemma print_success_message_run W {S} name path size created modified (st : store S) :
  exists lines,
    _print_success_message W (backup_record name path size created modified) st
    = (Ok tt, mkStore (obj st) (trace st ++ lines))
    /\ workflow lines = [].
Proof.
  unfold _print_success_message, backup_record, py_getitem, print, bind, emit, ret.
  cbn -[String.append py_str]. rewrite <- !app_assoc. cbn [app].
  eexists. split; reflexivity.
Qed.

Lemma print_program_footer_run {S} (st : store S) :
  exists lines,
    _print_program_footer st = (Ok tt, mkStore (obj st) (trace st ++ lines))
    /\ workflow lines = [].
Proof.
  unfold _print_program_footer, print, bind, emit.
  cbn -[String.append times]. rewrite <- !app_assoc. cbn [app].
  eexists. split; reflexivity.
Qed.

Lemma print_program_header_run {S} (st : store S) :
  exists lines,
    _print_program_header st = (Ok tt, mkStore (obj st) (trace st ++ lines))
    /\ workflow lines = [].
Proof.
  unfold _print_program_header, print, bind, emit.
  cbn -[String.append times]. rewrite <- !app_assoc. cbn [app].
  eexists. split; reflexivity.
Qed.

(** The part of [main] that works on the [CatCloudBackup] object. *)
Lemma session_shape W text (st : store CatCloudBackup) :
  let self := obj st in
  let folder := _group_name self in
  exists res o new,
    (print (newline ++ "🐱 Получаю картинку кота с текстом '" ++ text ++ "'...") ;;
     file_info <- backup_cat_image W text ;;
     _print_success_message W file_info ;;
     print (newline ++ "💾 Сохраняю информацию о загруженных файлах...") ;;
     save_backup_info W DEFAULT_BACKUP_INFO ;;
     print "✅ Информация сохранена в backup_info.json" ;;
     _print_program_footer) st
    = (res, mkStore o (trace st ++ new))
    /\ (res = Ok tt ->
        exists r2 filename upload_url o1 o3 o4 polls o5 date total size created modified,
          let remote_path := ("/" ++ folder ++ "/" ++ filename)%string in
          workflow new
          = [EvHttp (mkdir_request self ("/" ++ folder)) o1;
             EvHttp (download_request text) (Responded r2);
             EvHttp (upload_url_request self remote_path) o3;
             EvHttp (upload_request upload_url (content r2)) o4]
            ++ polls
            ++ [EvHttp (metadata_request self remote_path) o5;
                EvWriteJson "backup_info.json"
                  (backup_document
                     (with_record self
                        (backup_record filename remote_path size created modified))
                     date total) None]
          /\ Forall (fun e => exists op out, e = EvHttp (status_request self op) out) polls
          /\ (List.length polls <= 10)%nat).
Proof.
  intros self folder.
  unfold print at 1. unfold bind at 1, emit at 1. cbv beta iota.
  match goal with
  | |- context [bind (backup_cat_image W text) _ ?s] =>
      destruct (backup_shape W text s) as (res1 & new1 & H1 & Hok1)
  end.
  cbn [obj trace] in H1, Hok1. fold self in H1, Hok1. fold folder in Hok1.
  destruct res1 as [record | e].
  2: { rewrite (bind_raised _ _ _ _ _ H1). rewrite <- app_assoc.
       do 3 eexists. split; [reflexivity | discriminate]. }
  rewrite (bind_ok _ _ _ _ _ H1). clear H1. cbv beta.
  destruct (Hok1 record eq_refl) as (o1 & r2 & uploading & -> & Hup). clear Hok1.
  match type of Hup with
  | upload_run _ _ ?n _ _ _ => set (filename := n) in *; clearbody filename
  end.
  apply upload_run_ok in Hup
    as (o3 & upload_url & o4 & polling & o5 & size & created & modified & -> & -> & Hpoll).
  match goal with
  | |- context [bind (_print_success_message W (backup_record ?n ?p _ _ _)) _ ?s] =>
      destruct (print_success_message_run W n p size created modified s)
        as (lines & H2 & Hlines)
  end.
  rewrite (bind_ok _ _ _ _ _ H2). clear H2. cbv beta.
  unfold print at 1. unfold bind at 1, emit at 1. cbv beta iota. cbn [obj trace].
  match goal with
  | |- context [bind (save_backup_info W DEFAULT_BACKUP_INFO) _ ?s] =>
      destruct (save_backup_info_shape W DEFAULT_BACKUP_INFO s)
        as (res3 & new3 & H3 & Hsave)
  end.
  cbn [obj trace] in H3, Hsave.
  destruct res3 as [[] | e].
  2: { rewrite (bind_raised _ _ _ _ _ H3). rewrite <- !app_assoc.
       do 3 eexists. split; [reflexivity | discriminate]. }
  rewrite (bind_ok _ _ _ _ _ H3). clear H3. cbv beta.
  unfold print at 1. unfold bind at 1, emit at 1. cbv beta iota. cbn [obj trace].
  match goal with
  | |- context [_print_program_footer ?s] =>
      destruct (print_program_footer_run s) as (footer & H4 & Hfooter)
  end.
  rewrite H4. clear H4. cbn [obj trace]. rewrite <- !app_assoc.
  do 3 eexists. split; [reflexivity | ]. intros _.
  destruct (sum_sizes _) as [total | ] in Hsave;
    [ | destruct Hsave as [_ [e He]]; discriminate].
  cbv zeta in Hsave. destruct Hsave as [-> Herr].
  destruct (fs_error W _ DEFAULT_BACKUP_INFO) as [msg | ] in *;
    [destruct Herr as [msg' He]; discriminate | ].
  destruct (workflow_of_polling self polling Hpoll) as [Hpolls Hlen].
  exists r2, filename, upload_url, o1, o3, o4, (workflow polling), o5.
  do 2 eexists. exists size, created, modified.
  split; [ | split; assumption].
  unfold workflow in *.
  repeat (rewrite ?filter_app; cbn [filter is_step app]).
  rewrite Hlines, Hfooter. rewrite <- ?app_assoc. cbn [app]. reflexivity.
Qed.

Lemma get_yandex_token_run W {S} (st : store S) :
  exists token lines,
    _get_yandex_token W st
    = (Ok token, mkStore (obj st) (trace st ++ EvGetenv "YANDEX_TOKEN" :: lines))
    /\ workflow lines = [].
Proof.
  unfold _get_yandex_token, os_getenv, input, bind, emit, history, ret. cbn [obj trace].
  destruct (environ W "YANDEX_TOKEN") as [token | ];
    [destruct (String.eqb token "") | ];
    cbn [obj trace]; rewrite <- ?app_assoc; cbn [app];
    do 2 eexists; split; reflexivity.
Qed.

Lemma get_group_name_run W {S} (st : store S) :
  exists folder,
    _get_group_name W st
    = (Ok folder, mkStore (obj st) (trace st ++ [EvGetenv "GROUP_NAME"])).
Proof. eexists. reflexivity. Qed.

Lemma get_text_from_user_run W {S} (st : store S) :
  exists res,
    _get_text_from_user W st
    = (res, mkStore (obj st)
              (trace st ++ [EvInput "Введите текст для картинки кота: "])).
Proof.
  unfold _get_text_from_user, input, bind, emit, history, ret, raise. cbn [obj trace].
  destruct (String.eqb (strip (stdin_line W (trace st))) ""); eexists; reflexivity.
Qed.

Lemma main_try_shape W (st : store unit) :
  exists res new,
    main_try W st = (res, mkStore (obj st) (trace st ++ new))
    /\ (res = Ok tt ->
        exists token folder text r2 filename upload_url o1 o3 o4 polls o5
               date total size created modified,
          let self := __init__ token folder in
          let remote_path := ("/" ++ folder ++ "/" ++ filename)%string in
          workflow new
          = [EvGetenv "YANDEX_TOKEN"; EvGetenv "GROUP_NAME";
             EvHttp (mkdir_request self ("/" ++ folder)) o1;
             EvHttp (download_request text) (Responded r2);
             EvHttp (upload_url_request self remote_path) o3;
             EvHttp (upload_request upload_url (content r2)) o4]
            ++ polls
            ++ [EvHttp (metadata_request self remote_path) o5;
                EvWriteJson "backup_info.json"
                  (backup_document
                     (with_record self
                        (backup_record filename remote_path size created modified))
                     date total) None]
          /\ Forall (fun e => exists op out, e = EvHttp (status_request self op) out) polls
          /\ (List.length polls <= 10)%nat).
Proof.
  unfold main_try.
  destruct (get_yandex_token_run W st) as (token & lines & H1 & Hlines).
  rewrite (bind_ok _ _ _ _ _ H1). clear H1. cbv beta.
  match goal with
  | |- context [bind (_get_group_name W) _ ?s] =>
      destruct (get_group_name_run W s) as (folder & H2)
  end.
  rewrite (bind_ok _ _ _ _ _ H2). clear H2. cbv beta.
  unfold print at 1. unfold bind at 1, emit at 1. cbv beta iota. cbn [obj trace].
  match goal with
  | |- context [bind (_get_text_from_user W) _ ?s] =>
      destruct (get_text_from_user_run W s) as (res3 & H3)
  end.
  cbn [obj trace] in H3.
  destruct res3 as [text | e].
  2: { rewrite (bind_raised _ _ _ _ _ H3). rewrite <- !app_assoc.
       do 2 eexists. split; [reflexivity | discriminate]. }
  rewrite (bind_ok _ _ _ _ _ H3). clear H3. cbv beta.
  unfold with_object. cbn [obj trace].
  match goal with
  | |- context [bind (print ?line) ?k ?s] =>
      destruct (session_shape W text s) as (res & o & new & H4 & Hok)
  end.
  cbn [obj trace] in H4, Hok. rewrite H4. clear H4. rewrite <- !app_assoc.
  do 2 eexists. split; [reflexivity | ].
  intros Hres.
  destruct (Hok Hres)
    as (r2 & filename & upload_url & o1 & o3 & o4 & polls & o5 & date & total
        & size & created & modified & Hflow & Hpolls & Hlen).
  exists token, folder, text, r2, filename, upload_url, o1, o3, o4, polls, o5,
    date, total, size, created, modified.
  cbv zeta. split; [ | split; assumption].
  unfold workflow in *.
  repeat (rewrite ?filter_app; cbn [filter is_step app]).
  rewrite Hlines, Hflow. reflexivity.
Qed.

(** C5 as the code has it.  In every run of [main] whose [try] block ends
    without an exception, the workflow goes: read the token, read the folder
    name, ensure the remote folder, download the image, request an upload
    URL, PUT the downloaded bytes, poll if the upload was only accepted,
    fetch the metadata, write backup_info.json.  The folder is ensured
    before the image is downloaded. *)
Theorem workflow_runs_in_code_order W (st : store unit) :
  result (main_try W) (final _print_program_header st) = Ok tt ->
  runs_in_code_order W st.
Proof.
  intros Hok. unfold runs_in_code_order, main.
  destruct (print_program_header_run st) as (header & H1 & Hheader).
  unfold final in Hok. rewrite H1 in Hok. cbn [snd] in Hok.
  destruct (main_try_shape W (mkStore (obj st) (trace st ++ header)))
    as (res & new & H2 & Hflow).
  unfold result in Hok. rewrite H2 in Hok. cbn [fst] in Hok. subst res.
  cbn [obj trace] in H2.
  assert (Hmain : (_print_program_header ;; try_except (main_try W) (main_except W)) st
                  = (Ok tt, mkStore (obj st) (trace st ++ header ++ new))).
  { rewrite (bind_ok _ _ _ _ _ H1). cbv beta.
    rewrite (try_ok _ _ _ _ _ H2). rewrite <- app_assoc. reflexivity. }
  apply events_of_run in Hmain as (_ & _ & _ & Hev). rewrite Hev.
  destruct (Hflow eq_refl)
    as (token & folder & text & r2 & filename & upload_url & o1 & o3 & o4 & polls & o5
        & date & total & size & created & modified & Hnew & Hpolls & Hlen).
  exists token, folder, text, r2, filename, upload_url, o1, o3, o4, polls, o5,
    date, total, size, created, modified.
  cbv zeta in *. split; [ | split; assumption].
  rewrite workflow_app, Hheader. exact Hnew.
Qed.

Lemma workflow_runs_in_code_order_witness : runs_in_code_order happy start.
Proof.
  apply (workflow_runs_in_code_order happy start). vm_compute. reflexivity.
Defined.

(** C5 as the claim states it fails: in the successful run of the happy
    world the first request ensures the folder and only the second one
    downloads the image. *)
Lemma folder_is_ensured_before_download :
  let requests := http_requests (events (main happy) start) in
  result (main_try happy) (final _print_program_header start) = Ok tt
  /\ nth_error requests 0
     = Some (mkdir_request (__init__ "t0k3n" "Нетология") "/Нетология")
  /\ nth_error requests 1 = Some (download_request "hello cat").
Proof. vm_compute. repeat split; reflexivity. Qed.

(* ================================================================== *)
(** * More of the code *)

(** ** [_get_upload_url] and [_get_file_metadata] *)

(** [_get_upload_url] sends one GET for the path with overwrite=true and
    returns the "href" of the JSON object it gets.  A transport failure, an
    HTTP error and a body that is not JSON end in a [RequestException]; a
    JSON object without "href" ends in a [KeyError] and any other JSON value
    in a [TypeError], neither of which the method catches. *)
Theorem get_upload_url_returns_href W remote_path (st : store CatCloudBackup) :
  let run := _get_upload_url W remote_path in
  let req := upload_url_request (obj st) remote_path in
  let out := http_reply W (trace st) req in
  final run st = mkStore (obj st) (trace st ++ [EvHttp req out])
  /\ match out with
     | Failed _ _ => raises_request_exception (result run st)
     | Responded r =>
         if is_http_error r then raises_request_exception (result run st)
         else
           match body r with
           | None => raises_request_exception (result run st)
           | Some (JObj fields) =>
               match dict_lookup "href" fields with
               | Some v => result run st = Ok v
               | None => result run st = Raised (new_exn KeyError "'href'")
               end
           | Some _ => exists msg, result run st = Raised (new_exn TypeError msg)
           end
     end.
Proof.
  intros run req out. subst run. unfold result, final.
  unfold _get_upload_url, _get_authorization_headers.
  run_monad. fold (auth_headers (obj st)). fold (upload_url_request (obj st) remote_path).
  fold req. fold out. unfold is_http_error, raises_request_exception.
  destruct out as [f msg | r].
  - destruct f; cbn -[String.append]; eauto.
  - split_status r; cbn -[String.append]; eauto.
    all: destruct (body r) as [[ | b | n | s | items | fields] | ];
      cbn -[String.append]; eauto.
    all: destruct (dict_lookup "href" fields); cbn -[String.append]; eauto.
Qed.

Lemma get_file_metadata_cases W remote_path (st : store CatCloudBackup) :
  let run := _get_file_metadata W remote_path in
  let req := metadata_request (obj st) remote_path in
  let out := http_reply W (trace st) req in
  final run st = mkStore (obj st) (trace st ++ [EvHttp req out])
  /\ match out with
     | Failed _ _ => raises_request_exception (result run st)
     | Responded r =>
         if is_http_error r then raises_request_exception (result run st)
         else
           match body r with
           | None => raises_request_exception (result run st)
           | Some v => result run st = Ok v
           end
     end.
Proof.
  intros run req out. subst run. unfold result, final.
  unfold _get_file_metadata, _get_authorization_headers.
  run_monad. fold (auth_headers (obj st)). fold (metadata_request (obj st) remote_path).
  fold req. fold out. unfold is_http_error, raises_request_exception.
  destruct out as [f msg | r].
  - destruct f; cbn -[String.append]; eauto.
  - split_status r; cbn -[String.append]; eauto.
    all: destruct (body r); cbn -[String.append]; eauto.
Qed.

(** [_get_file_metadata] sends one GET for the path and returns the decoded
    JSON body, whatever it is; a transport failure, an HTTP error and a body
    that is not JSON end in a [RequestException]. *)
Theorem get_file_metadata_returns_body W remote_path (st : store CatCloudBackup) :
  let run := _get_file_metadata W remote_path in
  let req := metadata_request (obj st) remote_path in
  let out := http_reply W (trace st) req in
  final run st = mkStore (obj st) (trace st ++ [EvHttp req out])
  /\ match out with
     | Failed _ _ => raises_request_exception (result run st)
     | Responded r =>
         if is_http_error r then raises_request_exception (result run st)
         else
           match body r with
           | None => raises_request_exception (result run st)
           | Some v => result run st = Ok v
           end
     end.
Proof. exact (get_file_metadata_cases W remote_path st). Qed.

(** ** [strip] and the prompts *)

Lemma white_space_table : WHITESPACE = map utf8_encode white_space_code_points.
Proof. vm_compute. reflexivity. Qed.

Lemma is_space_white c : is_space c = true <-> is_white c.
Proof.
  unfold is_space, is_white. rewrite <- white_space_table. split.
  - intros H. apply existsb_exists in H as (w & Hin & Heq).
    apply String.eqb_eq in Heq. subst. exact Hin.
  - intros H. apply existsb_exists. exists c. split; [exact H | apply String.eqb_refl].
Qed.

(** One case for each white-space character. *)
Ltac each_white H :=
  unfold is_white in H; rewrite <- white_space_table in H; vm_compute in H;
  repeat (destruct H as [H | H]; [symmetry in H; subst | ]); [ .. | contradiction H].

Ltac not_a_space :=
  repeat match goal with
         | E : is_space _ = false |- _ => vm_compute in E; try discriminate E; clear E
         end.

Lemma join_app a b : join (a ++ b) = (join a ++ join b)%string.
Proof.
  induction a as [ | c a IH]; cbn [app join]; [reflexivity | ].
  rewrite IH, append_assoc. reflexivity.
Qed.

Lemma white_not_empty w : is_white w -> w <> ""%string.
Proof. intros H. each_white H; discriminate. Qed.

Lemma lstrip_white w rest : is_white w -> lstrip (w ++ rest) = lstrip rest.
Proof. intros H. each_white H; vm_compute; reflexivity. Qed.

Lemma lstrip_all_white ws : Forall is_white ws -> lstrip (join ws) = ""%string.
Proof.
  induction 1 as [ | w ws Hw _ IH]; [reflexivity | ].
  cbn [join]. rewrite lstrip_white by exact Hw. exact IH.
Qed.

Lemma lstrip_spec_upto n : forall s,
  (String.length s <= n)%nat ->
  exists whites,
    Forall is_white whites
    /\ s = (join whites ++ lstrip s)%string
    /\ (forall w rest, is_white w -> lstrip s <> (w ++ rest)%string).
Proof.
  induction n as [ | n IH]; intros s Hlen.
  - destruct s; [ | cbn in Hlen; lia]. exists []. conj; [constructor | reflexivity | ].
    intros w rest Hw Heq. each_white Hw; discriminate Heq.
  - destruct s as [ | a rest].
    { exists []. conj; [constructor | reflexivity | ].
      intros w r Hw Heq. each_white Hw; discriminate Heq. }
    cbn [String.length] in Hlen. cbn [lstrip].
    destruct (is_space (String a "")) eqn:E1.
    { destruct (IH rest ltac:(lia)) as (ws & Hws & Heq & Hno).
      exists (String a "" :: ws). conj; [ | | exact Hno].
      - constructor; [apply is_space_white, E1 | exact Hws].
      - cbn. f_equal. exact Heq. }
    destruct rest as [ | b rest'].
    { exists []. conj; [constructor | reflexivity | ].
      intros w r Hw Heq. each_white Hw; cbn in Heq; try discriminate Heq;
        injection Heq; intros; subst; not_a_space. }
    cbn [String.length] in Hlen.
    destruct (is_space (String a (String b ""))) eqn:E2.
    { destruct (IH rest' ltac:(lia)) as (ws & Hws & Heq & Hno).
      exists (String a (String b "") :: ws). conj; [ | | exact Hno].
      - constructor; [apply is_space_white, E2 | exact Hws].
      - cbn. do 2 f_equal. exact Heq. }
    destruct rest' as [ | c rest''].
    { exists []. conj; [constructor | reflexivity | ].
      intros w r Hw Heq. each_white Hw; cbn in Heq; try discriminate Heq;
        injection Heq; intros; subst; not_a_space. }
    cbn [String.length] in Hlen.
    destruct (is_space (String a (String b (String c "")))) eqn:E3.
    { destruct (IH rest'' ltac:(lia)) as (ws & Hws & Heq & Hno).
      exists (String a (String b (String c "")) :: ws). conj; [ | | exact Hno].
      - constructor; [apply is_space_white, E3 | exact Hws].
      - cbn. do 3 f_equal. exact Heq. }
    exists []. conj; [constructor | reflexivity | ].
    intros w r Hw Heq. each_white Hw; cbn in Heq; try discriminate Heq;
      injection Heq; intros; subst; not_a_space.
Qed.

Lemma rstrip_spec s :
  exists whites,
    Forall is_white whites
    /\ s = (rstrip s ++ join whites)%string
    /\ (forall w rest, is_white w -> rstrip s <> (rest ++ w)%string).
Proof.
  induction s as [ | a rest (ws & Hws & Heq & Hno)].
  - exists []. conj; [constructor | reflexivity | ].
    intros w r Hw H. destruct r; [ | discriminate H].
    cbn in H. symmetry in H. exact (white_not_empty w Hw H).
  - cbn [rstrip]. cbv zeta. destruct (is_space (String a (rstrip rest))) eqn:E.
    + exists (String a (rstrip rest) :: ws). conj.
      * constructor; [apply is_space_white, E | exact Hws].
      * cbn. f_equal. exact Heq.
      * intros w r Hw H. destruct r; [ | discriminate H].
        cbn in H. symmetry in H. exact (white_not_empty w Hw H).
    + exists ws. conj; [exact Hws | cbn; f_equal; exact Heq | ].
      intros w r Hw H. destruct r as [ | x r'].
      * cbn in H. subst w. apply is_space_white in Hw. congruence.
      * cbn in H. injection H as _ H. exact (Hno w r' Hw H).
Qed.

(** [strip] does what [str.strip] does. *)
Lemma strip_spec line : stripped line (strip line).
Proof.
  unfold stripped, strip.
  destruct (lstrip_spec_upto (String.length line) line (le_n _))
    as (ws1 & Hws1 & Hline & Hprefix).
  destruct (rstrip_spec (lstrip line)) as (ws2 & Hws2 & Hmiddle & Hsuffix).
  exists (join ws1), (join ws2). conj.
  - exists ws1. split; [exact Hws1 | reflexivity].
  - exists ws2. split; [exact Hws2 | reflexivity].
  - rewrite <- Hmiddle. exact Hline.
  - intros w rest Hw H. apply (Hprefix w (rest ++ join ws2)%string Hw).
    rewrite Hmiddle at 1. rewrite H. apply append_assoc.
  - exact Hsuffix.
Qed.

(** [strip] leaves nothing exactly of the texts that are nothing but white
    space. *)
Lemma strip_empty line : strip line = ""%string <-> all_white line.
Proof.
  split.
  - intros H. destruct (strip_spec line) as (before & after & (ws1 & H1 & ->)
                                               & (ws2 & H2 & ->) & Hline & _).
    rewrite H in Hline. cbn in Hline. exists (ws1 ++ ws2). split.
    + apply Forall_app. split; assumption.
    + rewrite join_app. exact Hline.
  - intros (ws & Hws & ->). unfold strip. rewrite lstrip_all_white by exact Hws.
    reflexivity.
Qed.

(** White space at the ends of a line is stripped whatever its kind: here a
    no-break space (U+00A0) before the text and a space and an em space
    (U+2003) after it. *)
Example all_white_space_is_stripped :
  strip (utf8_encode 160 ++ "кот " ++ utf8_encode 8195) = "кот"%string
  /\ utf8_encode 160 = bytes [194; 160]
  /\ utf8_encode 8195 = bytes [226; 128; 131].
Proof. vm_compute. repeat split; reflexivity. Qed.

(** [_get_text_from_user] prompts once and reads one line.  It returns the
    line without the white space (Unicode white space included) at its two
    ends, and what it returns is never empty; when the line is nothing but
    white space it raises the [ValueError] "Текст не может быть пустым!". *)
Theorem get_text_from_user_is_trimmed W (st : store unit) :
  let line := stdin_line W (trace st) in
  final (_get_text_from_user W) st
  = mkStore (obj st) (trace st ++ [EvInput "Введите текст для картинки кота: "])
  /\ match result (_get_text_from_user W) st with
     | Ok text => stripped line text /\ text <> ""%string
     | Raised e =>
         e = new_exn ValueError "Текст не может быть пустым!" /\ all_white line
     end.
Proof.
  intros line.
  unfold result, final, _get_text_from_user, input, bind, emit, history, ret, raise.
  cbn [obj trace]. fold line.
  destruct (String.eqb_spec (strip line) ""); cbn [fst snd].
  - split; [reflexivity | ]. split; [reflexivity | apply strip_empty; assumption].
  - split; [reflexivity | ]. split; [apply strip_spec | assumption].
Qed.

(** [_get_yandex_token] reads YANDEX_TOKEN from the environment.  A token
    that is set and not empty is returned as it is, without a prompt; when
    the variable is unset or empty the user is prompted once and the token is
    the typed line without the white space at its two ends (it may then be
    empty). *)
Theorem get_yandex_token_prefers_environment W (st : store unit) :
  let run := @_get_yandex_token W unit in
  let asked := EvInput "Введите OAuth токен Яндекс.Диска: " in
  match environ W "YANDEX_TOKEN" with
  | Some (String c rest) =>
      result run st = Ok (String c rest)
      /\ events run st = [EvGetenv "YANDEX_TOKEN"]
  | _ =>
      (exists token,
          result run st = Ok token
          /\ stripped (stdin_line W (trace st ++ [EvGetenv "YANDEX_TOKEN"])) token)
      /\ events run st = [EvGetenv "YANDEX_TOKEN"; asked]
  end.
Proof.
  intros run asked. subst run asked.
  assert (Hev : forall (m : M unit string) res new,
             m st = (res, mkStore (obj st) (trace st ++ new)) ->
             result m st = res /\ events m st = new).
  { intros m res new H. apply events_of_run in H as (H1 & _ & _ & H2). auto. }
  destruct (environ W "YANDEX_TOKEN") as [[ | c rest] | ] eqn:Eenv.
  2: { apply Hev. unfold _get_yandex_token, os_getenv, input, bind, emit, history, ret.
       cbn [obj trace]. rewrite Eenv. reflexivity. }
  all: match goal with
       | |- (exists token, ?r = Ok token /\ _) /\ ?ev = ?new =>
           assert (H : r = Ok (strip (stdin_line W (trace st ++ [EvGetenv "YANDEX_TOKEN"])))
                       /\ ev = new)
       end.
  1, 3: apply Hev; unfold _get_yandex_token, os_getenv, input, bind, emit, history, ret;
    cbn [obj trace]; rewrite Eenv; cbn [String.eqb obj trace];
    rewrite <- ?app_assoc; reflexivity.
  all: destruct H as [Hres Hevents]; split; [ | exact Hevents].
  all: eexists; split; [exact Hres | apply strip_spec].
Qed.

(** ** Failures of [save_backup_info] *)



(** ** [_print_error_details] *)

(** For an error that carries a response, [_print_error_details] prints the
    status code and then one more line: the "message" of a JSON object body,
    or else the first 200 characters (code points, not bytes) of the decoded
    body followed by three dots (also when the body is not JSON).  It lets a [TypeError]
    escape, after
    the status line, when the body is a JSON null, boolean or number, a list
    that has the string "message" as an element, or a string that contains
    "message". *)
Theorem print_error_details_cases W error r (st : store unit) :
  exn_response error = Some r ->
  let run := _print_error_details W error in
  let status := EvPrint ("  Статус код: " ++ string_of_Z (status_code r))%string in
  let fallback :=
    EvPrint ("  Ответ: " ++ utf8 (firstn 200 (text r)) ++ "...")%string in
  let escapes := exists msg, result run st = Raised (new_exn TypeError msg) in
  match body r with
  | None => result run st = Ok tt /\ events run st = [status; fallback]
  | Some (JObj fields) =>
      result run st = Ok tt
      /\ events run st
         = [status;
            match dict_lookup "message" fields with
            | Some v => EvPrint ("  Сообщение: " ++ py_str W v)%string
            | None => fallback
            end]
  | Some (JArr items) =>
      if existsb (fun x => eq_str x "message") items
      then escapes /\ events run st = [status]
      else result run st = Ok tt /\ events run st = [status; fallback]
  | Some (JStr s) =>
      match String.index 0 "message" s with
      | Some _ => escapes /\ events run st = [status]
      | None => result run st = Ok tt /\ events run st = [status; fallback]
      end
  | Some _ => escapes /\ events run st = [status]
  end.
Proof.
  intros Hr run status fallback escapes. subst escapes.
  assert (Hev : forall res new,
             run st = (res, mkStore (obj st) (trace st ++ new)) ->
             result run st = res /\ events run st = new).
  { intros res new H. apply events_of_run in H as (H1 & _ & _ & H2). auto. }
  assert (Hesc : forall msg new,
             run st = (Raised (new_exn TypeError msg), mkStore (obj st) (trace st ++ new)) ->
             (exists msg', result run st = Raised (new_exn TypeError msg'))
             /\ events run st = new).
  { intros msg new H. apply Hev in H as [H1 H2]. eauto. }
  subst run. unfold _print_error_details in *. rewrite Hr in *.
  unfold try_except, response_json, py_contains, py_getitem, print, bind, emit, ret, raise
    in *.
  cbn [obj trace] in *. fold status in Hev, Hesc |- *.
  destruct (body r) as [[ | b | n | s | items | fields] | ];
    cbn -[String.append String.index existsb] in *.
  - eapply Hesc. reflexivity.
  - eapply Hesc. reflexivity.
  - eapply Hesc. reflexivity.
  - destruct (String.index 0 "message" s); cbn -[String.append] in *.
    + eapply Hesc. reflexivity.
    + apply Hev. rewrite <- app_assoc. reflexivity.
  - destruct (existsb (fun x => eq_str x "message") items); cbn -[String.append] in *.
    + eapply Hesc. reflexivity.
    + apply Hev. rewrite <- app_assoc. reflexivity.
  - destruct (dict_lookup "message" fields); cbn -[String.append] in *;
      apply Hev; rewrite <- app_assoc; reflexivity.
  - apply Hev. rewrite <- app_assoc. reflexivity.
Qed.

(** A body that is a bare JSON number: the status line is printed, then the
    membership test raises. *)
Example bare_number_body_escapes :
  result (_print_error_details happy (http_error_of bare_number)) start
  = Raised (new_exn TypeError "argument of type 'int' is not iterable")
  /\ events (_print_error_details happy (http_error_of bare_number)) start
     = [EvPrint "  Статус код: 500"].
Proof. vm_compute. split; reflexivity. Qed.

(** A body of 201 Cyrillic letters that is no JSON: 200 letters, which are
    400 bytes, are printed. *)
Example cyrillic_body_is_cut_by_letters :
  events (_print_error_details happy (http_error_of cyrillic_page)) start
  = [EvPrint "  Статус код: 502";
     EvPrint ("  Ответ: " ++ join (repeat "я" 200) ++ "...")%string]
  /\ String.length (join (repeat "я" 200)) = 400%nat
  /\ utf8 [1082; 1086; 1090] = "кот"%string.
Proof. vm_compute. repeat split; reflexivity. Qed.

Lemma print_error_details_cases_witness :
  result (_print_error_details happy (http_error_of not_found)) start = Ok tt
  /\ events (_print_error_details happy (http_error_of not_found)) start
     = [EvPrint "  Статус код: 404"; EvPrint "  Сообщение: Resource not found."].
Proof.
  exact (print_error_details_cases happy (http_error_of not_found) not_found start eq_refl).
Defined.

(** ** The record of an upload *)

Lemma bind_inv_ok {S A B} (m : M S A) (k : A -> M S B) st b st' :
  bind m k st = (Ok b, st') ->
  exists a st1, m st = (Ok a, st1) /\ k a st1 = (Ok b, st').
Proof.
  unfold bind. destruct (m st) as [[a | e] st1]; intros H; [eauto | discriminate].
Qed.

Lemma try_inv_ok {S A} (m : M S A) h st a st' :
  (forall e st0, exists e', h e st0 = (Raised e', st0)) ->
  try_except m h st = (Ok a, st') -> m st = (Ok a, st').
Proof.
  intros Hh. unfold try_except. destruct (m st) as [[a0 | e] st1]; intros H; [exact H | ].
  destruct (Hh e st1) as [e' He]. rewrite He in H. discriminate.
Qed.

(** The last stage of an upload, run on its own: the record it returns. *)
Lemma metadata_stage_record W file_data filename remote_path
    (st st' : store CatCloudBackup) record :
  (file_metadata <- _get_file_metadata W remote_path ;;
   size <- py_get file_metadata "size" (JInt (len file_data)) ;;
   now1 <- datetime_now W ;;
   created <- py_get file_metadata "created" (JStr (isoformat now1)) ;;
   now2 <- datetime_now W ;;
   modified <- py_get file_metadata "modified" (JStr (isoformat now2)) ;;
   ret (JObj [("name", JStr filename);
              ("path", JStr remote_path);
              ("size", size);
              ("created", created);
              ("modified", modified)])) st
  = (Ok record, st') ->
  exists r fields,
    let asked := trace st ++ [EvHttp (metadata_request (obj st) remote_path) (Responded r)] in
    http_reply W (trace st) (metadata_request (obj st) remote_path) = Responded r
    /\ body r = Some (JObj fields)
    /\ st' = mkStore (obj st) (asked ++ [EvNow; EvNow])
    /\ record
       = backup_record filename remote_path
           (field_or "size" fields (JInt (len file_data)))
           (field_or "created" fields (JStr (isoformat (clock W asked))))
           (field_or "modified" fields (JStr (isoformat (clock W (asked ++ [EvNow]))))).
Proof.
  intros H. apply bind_inv_ok in H as (file_metadata & st1 & H1 & H).
  pose proof (get_file_metadata_cases W remote_path st) as Hmeta.
  cbv zeta in Hmeta. unfold result, final in Hmeta. rewrite H1 in Hmeta.
  cbn [fst snd] in Hmeta. destruct Hmeta as [-> Hmeta].
  destruct (http_reply W (trace st) (metadata_request (obj st) remote_path))
    as [f msg | r]; [destruct Hmeta; discriminate | ].
  destruct (is_http_error r); [destruct Hmeta; discriminate | ].
  destruct (body r) as [v | ] eqn:Ebody; [ | destruct Hmeta; discriminate].
  injection Hmeta as ->.
  destruct v as [ | b | n | s | items | fields]; try discriminate.
  exists r, fields. cbv zeta. split; [reflexivity | ]. split; [exact Ebody | ].
  unfold bind, py_get, datetime_now, history, emit, ret in H.
  cbn -[String.append isoformat len dict_lookup] in H.
  injection H as <- <-. unfold backup_record, field_or.
  rewrite <- !app_assoc. split; reflexivity.
Qed.

(** The record of a successful upload falls back on what the program
    knows: the last events of the run are the metadata exchange and two clock
    reads, the metadata is a JSON object, and the record takes "size",
    "created" and "modified" from it where they are present and otherwise
    the length of the uploaded bytes and the time of the first and of the
    second clock read. *)
Theorem upload_record_falls_back W file_data filename (st : store CatCloudBackup) record :
  result (_upload_file_to_disk W file_data filename) st = Ok record ->
  exists pre r fields,
    let remote_path := ("/" ++ _group_name (obj st) ++ "/" ++ filename)%string in
    let asked :=
      trace st ++ pre ++ [EvHttp (metadata_request (obj st) remote_path) (Responded r)] in
    events (_upload_file_to_disk W file_data filename) st
    = pre ++ [EvHttp (metadata_request (obj st) remote_path) (Responded r); EvNow; EvNow]
    /\ body r = Some (JObj fields)
    /\ record
       = backup_record filename remote_path
           (field_or "size" fields (JInt (len file_data)))
           (field_or "created" fields (JStr (isoformat (clock W asked))))
           (field_or "modified" fields (JStr (isoformat (clock W (asked ++ [EvNow]))))).
Proof.
  intros Hok. unfold result in Hok.
  destruct (_upload_file_to_disk W file_data filename st) as [res st'] eqn:Hrun.
  cbn [fst] in Hok. subst res. pose proof Hrun as Hwhole.
  unfold _upload_file_to_disk in Hrun. unfold bind at 1, get_self at 1 in Hrun.
  set (remote_path := ("/" ++ _group_name (obj st) ++ "/" ++ filename)%string) in *.
  apply try_inv_ok in Hrun.
  2: { intros e st0. destruct (isinstance e Timeout);
       [ | destruct (isinstance e RequestException)]; eexists; reflexivity. }
  apply bind_inv_ok in Hrun as (u & st1 & H1 & Hrun).
  destruct (get_upload_url_shape W remote_path st) as (res1 & Hshape1).
  rewrite Hshape1 in H1. injection H1 as -> <-.
  apply bind_inv_ok in Hrun as (r2 & st2 & H2 & Hrun).
  unfold requests_put in H2. rewrite send_run in H2. cbn [obj trace] in H2.
  injection H2 as H2 <-.
  apply bind_inv_ok in Hrun as ([] & st3 & H3 & Hrun).
  destruct (is_http_error r2) eqn:Eerr.
  { destruct (raise_for_status_error r2
                (mkStore (obj st)
                   ((trace st
                       ++ [EvHttp (upload_url_request (obj st) remote_path)
                             (http_reply W (trace st)
                                (upload_url_request (obj st) remote_path))])
                      ++ [EvHttp (mkRequest PUT u [] [] (Some file_data) 60)
                            (http_reply W
                               (trace st
                                  ++ [EvHttp (upload_url_request (obj st) remote_path)
                                        (http_reply W (trace st)
                                           (upload_url_request (obj st) remote_path))])
                               (mkRequest PUT u [] [] (Some file_data) 60))])) Eerr)
      as [msg Hraise].
    rewrite Hraise in H3. discriminate. }
  rewrite (raise_for_status_ok _ _ Eerr) in H3. injection H3 as <-.
  apply bind_inv_ok in Hrun as ([] & st4 & H4 & Hrun).
  match type of H4 with
  | _ ?s = _ => destruct (polling_stage_shape W r2 s Eerr) as (res4 & new4 & Hshape4 & _)
  end.
  rewrite Hshape4 in H4. injection H4 as -> <-. cbn [obj trace] in Hrun.
  apply metadata_stage_record in Hrun as (r & fields & Hreply & Hbody & -> & ->).
  cbn [obj trace] in *.
  match type of Hwhole with
  | _ = (_, mkStore _ (((((trace st ++ [?e1]) ++ [?e2]) ++ ?mid) ++ [?e3]) ++ ?last)) =>
      exists (e1 :: e2 :: mid), r, fields;
      assert (Htr : ((((trace st ++ [e1]) ++ [e2]) ++ mid) ++ [e3])
                    = trace st ++ (e1 :: e2 :: mid) ++ [e3])
        by (rewrite <- !app_assoc; reflexivity);
      assert (Hfin : (((((trace st ++ [e1]) ++ [e2]) ++ mid) ++ [e3]) ++ last)
                     = trace st ++ ((e1 :: e2 :: mid) ++ e3 :: last))
        by (rewrite <- !app_assoc; reflexivity)
  end.
  cbv zeta. rewrite <- Htr. split; [ | split; [exact Hbody | reflexivity]].
  rewrite Hfin in Hwhole.
  apply events_of_run in Hwhole as (_ & _ & _ & Hev). rewrite Hev. reflexivity.
Qed.

Lemma upload_record_falls_back_witness :
  exists pre r fields,
    events (_upload_file_to_disk accepted_never_done "meow" "cat.jpg") fresh
    = pre ++ [EvHttp (metadata_request (obj fresh) "/cats/cat.jpg") (Responded r);
              EvNow; EvNow]
    /\ body r = Some (JObj fields).
Proof.
  destruct (upload_record_falls_back accepted_never_done "meow" "cat.jpg" fresh
              (backup_record "cat.jpg" "/cats/cat.jpg" (JInt 4)
                 (JStr "2024-05-17T12:30:45.123456") (JStr "2024-05-17T12:30:45.123456")))
    as (pre & r & fields & Hev & Hbody & _).
  - vm_compute. reflexivity.
  - exists pre, r, fields. split; [exact Hev | exact Hbody].
Defined.

(** ** When the poll loop ends *)

(** One turn of the loop raises a [RequestException] only on the last
    attempt. *)
Lemma poll_attempt_gives_up_last W headers u max attempt delay
    (st : store CatCloudBackup) e :
  result (poll_attempt W headers u max attempt delay) st = Raised e ->
  isinstance e RequestException = true ->
  attempt = max - 1.
Proof.
  unfold result, poll_attempt. run_monad.
  destruct (http_reply W (trace st) (mkRequest GET u headers [] None REQUEST_TIMEOUT))
    as [f msg | r].
  - destruct f; cbn; destruct (Z.eqb_spec attempt (max - 1)); cbn; congruence.
  - split_status r.
    all: cbn -[String.append].
    all: try (destruct (Z.eqb_spec attempt (max - 1)); cbn; congruence).
    all: destruct (body r) as [[ | b | n | s | items | fields] | ];
      cbn -[String.append];
      try (destruct (Z.eqb_spec attempt (max - 1)); cbn; congruence);
      try (intros H; injection H as <-; cbn; discriminate).
    all: destruct (dict_lookup "status" fields) as [[ | b | n | s | items | fields'] | ];
      cbn -[String.append]; try discriminate.
    all: destruct (String.eqb s "success"); cbn -[String.append]; try discriminate.
    all: destruct (String.eqb s "failed"); cbn -[String.append];
      [destruct (Z.eqb_spec attempt (max - 1)); cbn; congruence | ].
    all: destruct (String.eqb s "in-progress"); cbn -[String.append];
      [destruct (attempt <? max - 1) | ]; cbn; discriminate.
Qed.

Lemma poll_loop_end W headers u n : forall a delay (st : store CatCloudBackup),
  exists res new,
    poll_loop W headers u (Z.of_nat (a + n)) (map Z.of_nat (seq a n)) delay st
    = (res, mkStore (obj st) (trace st ++ new))
    /\ ((List.length (http_requests new) < n)%nat ->
        (res = Ok tt
         /\ exists pre req out, new = pre ++ [EvHttp req out]
                                /\ reports "success" out = true)
        \/ (exists e, res = Raised e /\ isinstance e RequestException = false))
    /\ (forall pre d post,
          new = pre ++ EvSleep d :: post ->
          exists pre' req out,
            pre = pre' ++ [EvHttp req out] /\ reports "in-progress" out = true).
Proof.
  induction n as [ | n IH]; intros a delay st.
  - exists (Ok tt), []. cbn. rewrite app_nil_r. destruct st. conj; [reflexivity | lia | ].
    intros pre d post H. destruct pre; discriminate.
  - cbn [seq map poll_loop]. unfold bind at 1.
    destruct (poll_attempt_shape W headers u (Z.of_nat (a + S n)) (Z.of_nat a) delay st)
      as (res1 & Hrun & _ & Hprog & Hsucc & _).
    pose proof (poll_attempt_gives_up_last W headers u (Z.of_nat (a + S n)) (Z.of_nat a)
                  delay st) as Hlate.
    unfold result in Hlate. rewrite Hrun in Hlate. cbn [fst] in Hlate.
    set (req := mkRequest GET u headers [] None REQUEST_TIMEOUT) in *.
    set (out := http_reply W (trace st) req) in *.
    rewrite Hrun. clear Hrun.
    set (slept := reports "in-progress" out && (Z.of_nat a <? Z.of_nat (a + S n) - 1)) in *.
    assert (Hslept : slept = true -> reports "in-progress" out = true).
    { unfold slept. intros H. apply andb_prop in H as [H _]. exact H. }
    assert (Hnot : (forall d, res1 <> Ok (LoopContinue d)) -> slept = false).
    { intros H. unfold slept. destruct (reports "in-progress" out); [ | reflexivity].
      destruct Hprog as [d Hd]; [reflexivity | ]. destruct (H d Hd). }
    destruct res1 as [[ | delay'] | e].
    + rewrite Hnot by discriminate.
      exists (Ok tt), [EvHttp req out]. conj; [reflexivity | | ].
      * intros _. left. split; [reflexivity | ].
        exists [], req, out. split; [reflexivity | apply Hsucc; reflexivity].
      * intros pre d post H.
        apply split_cons in H as [(_ & H & _) | (pre' & _ & H)]; [discriminate | ].
        destruct pre'; discriminate.
    + set (sl := if slept then [EvSleep delay] else []).
      destruct (IH (S a) delay' (mkStore (obj st) (trace st ++ EvHttp req out :: sl)))
        as (res & new' & Hrun & Hearly & Hsleep).
      replace (a + S n)%nat with (S a + n)%nat by lia.
      rewrite Hrun. cbn [obj trace]. rewrite <- app_assoc. cbn [app].
      exists res, (EvHttp req out :: sl ++ new'). split; [reflexivity | ].
      assert (Hnoreq : http_requests sl = []) by (unfold sl; destruct slept; reflexivity).
      split.
      * cbn [http_requests List.length]. rewrite http_requests_app, Hnoreq. cbn [app].
        intros Hlen.
        destruct Hearly as [(-> & pre & req' & out' & -> & Hs) | Hcrash]; [lia | | ].
        -- left. split; [reflexivity | ].
           exists (EvHttp req out :: sl ++ pre), req', out'.
           split; [cbn; rewrite app_assoc; reflexivity | exact Hs].
        -- right. exact Hcrash.
      * intros pre d post H.
        apply split_cons in H as [(_ & H & _) | (pre' & -> & H)]; [discriminate | ].
        unfold sl in H. destruct slept eqn:Es; cbn [app] in H.
        -- apply split_cons in H as [(-> & _ & _) | (pre'' & -> & H)].
           ++ exists [], req, out. split; [reflexivity | auto].
           ++ destruct (Hsleep _ _ _ H) as (p & req' & out' & -> & Hp).
              exists (EvHttp req out :: EvSleep delay :: p), req', out'.
              split; [reflexivity | exact Hp].
        -- destruct (Hsleep _ _ _ H) as (p & req' & out' & -> & Hp).
           exists (EvHttp req out :: p), req', out'. split; [reflexivity | exact Hp].
    + rewrite Hnot by discriminate.
      exists (Raised e), [EvHttp req out]. conj; [reflexivity | | ].
      * cbn [http_requests List.length]. intros Hlen. right. exists e.
        split; [reflexivity | ].
        destruct (isinstance e RequestException) eqn:Ei; [ | reflexivity].
        specialize (Hlate e eq_refl Ei). lia.
      * intros pre d post H.
        apply split_cons in H as [(_ & H & _) | (pre' & _ & H)]; [discriminate | ].
        destruct pre'; discriminate.
Qed.

(** [_wait_for_operation_completion] ends before its tenth request only when
    the last response reports "success", in which case it returns normally,
    or when an exception that is no [RequestException] escapes (a JSON body
    that is not an object).  Everything else, a "failed" status included, is
    retried.  And it sleeps only right after a response that reports
    "in-progress". *)
Theorem wait_retries_until_success_or_tenth W operation_url (st : store CatCloudBackup) :
  let run := _wait_for_operation_completion W operation_url in
  ((List.length (http_requests (events run st)) < 10)%nat ->
   (result run st = Ok tt
    /\ exists pre req out, events run st = pre ++ [EvHttp req out]
                           /\ reports "success" out = true)
   \/ (exists e, result run st = Raised e /\ isinstance e RequestException = false))
  /\ (forall pre d post,
        events run st = pre ++ EvSleep d :: post ->
        exists pre' req out,
          pre = pre' ++ [EvHttp req out] /\ reports "in-progress" out = true).
Proof.
  intros run.
  destruct (poll_loop_end W [("Authorization", ("OAuth " ++ _yandex_token (obj st))%string)]
              operation_url 10 0 1 st) as (res & new & Hrun & Hearly & Hsleep).
  assert (Hwait : run st = (res, mkStore (obj st) (trace st ++ new))) by exact Hrun.
  apply events_of_run in Hwait as (Hres & _ & _ & Hev).
  rewrite Hres, Hev. split; assumption.
Qed.

Lemma wait_retries_until_success_or_tenth_witness :
  exists pre req out,
    events (_wait_for_operation_completion failed_then_success (JStr "https://op")) fresh
    = pre ++ [EvHttp req out]
    /\ reports "success" out = true.
Proof.
  destruct (wait_retries_until_success_or_tenth failed_then_success (JStr "https://op")
              fresh) as [H _].
  destruct H as [[_ H] | (e & H & _)].
  - vm_compute. lia.
  - exact H.
  - vm_compute in H. discriminate.
Defined.

(** ** Which exceptions escape *)

Section Escapes.

Context {S : Type}.

Lemma raises_only_ret {A} P (a : A) : raises_only P (ret a : M S A).
Proof. intros st e H. discriminate. Qed.

Lemma raises_only_raise {A} (P : exn -> Prop) e : P e -> raises_only P (raise e : M S A).
Proof. intros HP st e' H. injection H as <-. exact HP. Qed.

Lemma raises_only_emit P ev : raises_only P (emit ev : M S unit).
Proof. intros st e H. discriminate. Qed.

Lemma raises_only_history P : raises_only P (history : M S (list event)).
Proof. intros st e H. discriminate. Qed.

Lemma raises_only_get_self P : raises_only P (get_self : M S S).
Proof. intros st e H. discriminate. Qed.

Lemma raises_only_set_self P s : raises_only P (set_self s : M S unit).
Proof. intros st e H. discriminate. Qed.

Lemma raises_only_bind {A B} P (m : M S A) (k : A -> M S B) :
  raises_only P m -> (forall a, raises_only P (k a)) -> raises_only P (bind m k).
Proof.
  intros Hm Hk st e. unfold result, bind.
  destruct (m st) as [[a | e'] st'] eqn:E.
  - apply Hk.
  - cbn. intros H. injection H as <-. apply (Hm st). unfold result. rewrite E. reflexivity.
Qed.

Lemma raises_only_try {A} Q P (m : M S A) handler :
  raises_only Q m -> (forall e, Q e -> raises_only P (handler e)) ->
  raises_only P (try_except m handler).
Proof.
  intros Hm Hh st e. unfold result, try_except.
  destruct (m st) as [[a | e'] st'] eqn:E.
  - discriminate.
  - apply Hh. apply (Hm st). unfold result. rewrite E. reflexivity.
Qed.

Lemma raises_only_weaken {A} (P Q : exn -> Prop) (m : M S A) :
  (forall e, P e -> Q e) -> raises_only P m -> raises_only Q m.
Proof. intros HPQ Hm st e H. apply HPQ. exact (Hm st e H). Qed.

Lemma raises_only_with_object {T A} P (o : T) (m : M T A) :
  raises_only P m -> raises_only P (with_object o m : M S A).
Proof.
  intros Hm st e. unfold result, with_object.
  destruct (m (mkStore o (trace st))) as [r st'] eqn:E. cbn. intros ->.
  apply (Hm (mkStore o (trace st))). unfold result. rewrite E. reflexivity.
Qed.

End Escapes.

Lemma plain_new classes c msg : In c classes -> plain classes (new_exn c msg).
Proof. intros H. split; [reflexivity | exact H]. Qed.

Lemma plain_incl classes classes' e :
  incl classes classes' -> plain classes e -> plain classes' e.
Proof. intros Hincl [Hnone Hin]. split; [exact Hnone | apply Hincl, Hin]. Qed.

Lemma caught_failure classes f msg : caught_or_plain classes (new_exn (class_of_failure f) msg).
Proof. left. destruct f; reflexivity. Qed.

Lemma uncaught_is_plain classes e :
  caught_or_plain classes e -> isinstance e RequestException = false -> plain classes e.
Proof. intros [H | H] Hi; [congruence | exact H]. Qed.

(** Settles that an exception built on the spot is of the stated kind. *)
Ltac classify :=
  solve [ apply caught_failure
        | left; reflexivity
        | right; apply plain_new; cbn; tauto
        | apply plain_new; cbn; tauto
        | assumption ].

(** Takes a computation apart along its binds, branches and primitive
    effects. *)
Ltac escapes :=
  repeat first
    [ match goal with
      | |- raises_only _ (ret _) => apply raises_only_ret
      | |- raises_only _ (emit _) => apply raises_only_emit
      | |- raises_only _ history => apply raises_only_history
      | |- raises_only _ get_self => apply raises_only_get_self
      | |- raises_only _ (set_self _) => apply raises_only_set_self
      | |- raises_only _ (raise _) => apply raises_only_raise; classify
      | |- raises_only _ (bind _ _) => apply raises_only_bind; [ | intros ?]
      | |- raises_only _ (if ?b then _ else _) => destruct b eqn:?
      | |- raises_only _ (match ?x with _ => _ end) => destruct x
      end
    | progress unfold requests_get, requests_put, send, raise_for_status, response_json,
        py_get, py_getitem, py_contains, py_add, print, time_sleep, datetime_now, os_getenv,
        input, dump_to_file, _get_authorization_headers ].

(** The handlers of the class: whatever they catch is raised anew as a
    [RequestException] without a response, whatever they pass on was
    plain. *)
Ltac rewrap :=
  intros ? ?;
  repeat match goal with
         | |- raises_only _ (if ?b then _ else _) => destruct b eqn:?
         end;
  try solve [apply raises_only_raise; classify];
  try solve [apply raises_only_ret];
  try solve [apply raises_only_raise; eapply uncaught_is_plain; eassumption].

(** A plain exception is among what a caller's [try] body may raise. *)
Ltac inner H :=
  apply (raises_only_weaken (plain backup_errors));
  [intros ? ?; right; assumption | apply H].

Section EscapesOfMethods.

Variable W : World.

Lemma download_cat_image_escapes text :
  raises_only (plain backup_errors) (_download_cat_image W text).
Proof.
  unfold _download_cat_image.
  apply (raises_only_try (caught_or_plain backup_errors)); [escapes | rewrap].
Qed.

Lemma create_remote_directory_escapes path :
  raises_only (plain backup_errors) (_create_remote_directory W path).
Proof.
  unfold _create_remote_directory. escapes.
  apply (raises_only_try (caught_or_plain backup_errors)); [escapes | rewrap].
Qed.

Lemma generate_filename_escapes text :
  raises_only (plain backup_errors) (_generate_filename W text).
Proof. unfold _generate_filename. escapes. Qed.

Lemma get_upload_url_escapes path :
  raises_only (plain backup_errors) (_get_upload_url W path).
Proof.
  unfold _get_upload_url. escapes.
  apply (raises_only_try (caught_or_plain backup_errors)); [escapes | rewrap].
Qed.

Lemma get_file_metadata_escapes path :
  raises_only (plain backup_errors) (_get_file_metadata W path).
Proof.
  unfold _get_file_metadata. escapes.
  apply (raises_only_try (caught_or_plain backup_errors)); [escapes | rewrap].
Qed.

Lemma poll_attempt_escapes headers u max attempt delay :
  raises_only (plain backup_errors) (poll_attempt W headers u max attempt delay).
Proof.
  unfold poll_attempt.
  apply (raises_only_try (caught_or_plain backup_errors)); [escapes | rewrap].
Qed.

Lemma poll_loop_escapes headers u max attempts :
  forall delay, raises_only (plain backup_errors) (poll_loop W headers u max attempts delay).
Proof.
  induction attempts as [ | attempt rest IH]; intros delay; cbn [poll_loop].
  - apply raises_only_ret.
  - apply raises_only_bind; [apply poll_attempt_escapes | ].
    intros [ | delay']; [apply raises_only_ret | apply IH].
Qed.

Lemma wait_escapes u :
  raises_only (plain backup_errors) (_wait_for_operation_completion W u).
Proof.
  unfold _wait_for_operation_completion. escapes. apply poll_loop_escapes.
Qed.

Lemma upload_escapes file_data filename :
  raises_only (plain backup_errors) (_upload_file_to_disk W file_data filename).
Proof.
  unfold _upload_file_to_disk. escapes.
  apply (raises_only_try (caught_or_plain backup_errors)); [ | rewrap].
  apply raises_only_bind; [inner get_upload_url_escapes | intros upload_url].
  apply raises_only_bind; [escapes | intros response].
  apply raises_only_bind; [escapes | intros _].
  apply raises_only_bind.
  - destruct (status_code response =? 202); [ | apply raises_only_ret].
    apply raises_only_bind; [escapes | intros decoded].
    apply raises_only_bind; [escapes | intros operation_url].
    destruct (truthy operation_url); [ | apply raises_only_ret].
    apply raises_only_bind; [escapes | intros _].
    inner wait_escapes.
  - intros _.
    apply raises_only_bind; [inner get_file_metadata_escapes | intros file_metadata].
    escapes.
Qed.

Lemma backup_escapes text :
  raises_only (plain backup_errors) (backup_cat_image W text).
Proof.
  unfold backup_cat_image. escapes.
  - apply create_remote_directory_escapes.
  - apply download_cat_image_escapes.
  - apply generate_filename_escapes.
  - apply upload_escapes.
Qed.

Lemma sum_of_items_escapes key xs :
  forall acc, raises_only (plain save_errors) (sum_of_items key acc xs : M CatCloudBackup Z).
Proof.
  induction xs as [ | x rest IH]; intros acc; cbn [sum_of_items].
  - apply raises_only_ret.
  - apply raises_only_bind; [escapes | intros v].
    apply raises_only_bind; [escapes | intros acc']. apply IH.
Qed.

Lemma save_backup_info_escapes filename :
  raises_only (plain save_errors) (save_backup_info W filename).
Proof.
  unfold save_backup_info. escapes; [apply sum_of_items_escapes | ].
  apply (raises_only_try (fun e => isinstance e OSError = true \/ plain save_errors e)).
  - escapes.
  - intros e He. destruct (isinstance e OSError) eqn:Ei; apply raises_only_raise.
    + classify.
    + destruct He as [He | He]; [discriminate | exact He].
Qed.

Lemma main_try_escapes : raises_only (plain main_errors) (main_try W).
Proof.
  unfold main_try, _get_yandex_token, _get_group_name, _get_text_from_user.
  escapes.
  all: apply raises_only_with_object.
  all: unfold _print_success_message, _print_program_footer.
  all: escapes.
  all: eapply raises_only_weaken;
    [ | first [apply backup_escapes | apply save_backup_info_escapes]].
  all: intros e; apply plain_incl; unfold main_errors; intros c Hc; right;
    apply in_or_app; auto.
Qed.

Lemma main_escapes : raises_only (fun _ => False) (main W).
Proof.
  unfold main, _print_program_header. escapes.
  apply (raises_only_try (plain main_errors)); [apply main_try_escapes | ].
  intros e [He _]. unfold main_except.
  destruct (isinstance e ValueError); [escapes | ].
  destruct (isinstance e RequestException); [ | escapes].
  apply raises_only_bind; [escapes | intros _].
  rewrite He. apply raises_only_ret.
Qed.

End EscapesOfMethods.

(** No exception leaves [main].  Every exception that leaves its [try]
    block was built by the program itself and carries no response (the
    methods of the class raise every request error anew), so the [except]
    clause for request errors never calls [_print_error_details], and each
    of the three clauses only prints. *)
Theorem main_never_raises W (st : store unit) :
  result (main W) st = Ok tt
  /\ forall st' e, result (main_try W) st' = Raised e ->
                   exn_response e = None
                   /\ result (main_except W e) (final (main_try W) st') = Ok tt.
Proof.
  split.
  - destruct (result (main W) st) as [[] | e] eqn:E; [reflexivity | ].
    destruct (main_escapes W st e E).
  - intros st' e H. destruct (main_try_escapes W st' e H) as [He _]. split; [exact He | ].
    unfold main_except, result.
    destruct (isinstance e ValueError); [reflexivity | ].
    destruct (isinstance e RequestException); [ | reflexivity].
    rewrite He. reflexivity.
Qed.



(** ** A blank caption *)

Lemma main_with_blank_caption W (st : store unit) :
  (forall h, strip (stdin_line W (trace st ++ h)) = ""%string) ->
  exists pre,
    main W st
    = (Ok tt,
       mkStore (obj st)
         (trace st ++ pre ++ [EvInput "Введите текст для картинки кота: ";
                              EvPrint "❌ Ошибка: Текст не может быть пустым!"]))
    /\ forallb is_local pre = true.
Proof.
  intros Hblank.
  unfold main, _print_program_header, try_except, main_try, _get_yandex_token,
    _get_group_name, _get_text_from_user, os_getenv, input, print.
  unfold bind, emit, history, ret, raise. cbn [obj trace].
  destruct (environ W "YANDEX_TOKEN") as [token | ];
    [destruct (String.eqb token "") | ]; cbn [obj trace];
    rewrite <- ?app_assoc; cbn [app]; rewrite ?Hblank; cbn [String.eqb];
    unfold main_except, print, emit;
    cbn [isinstance issubclass exn_class_of exn_str new_exn obj trace];
    rewrite <- ?app_assoc; cbn [app].
  all: eexists; split;
    [ match goal with
      | |- (_, mkStore _ (_ ++ ?l)) = (_, mkStore _ (_ ++ ?pre ++ _)) =>
          let n := eval cbv in (List.length l - 2)%nat in
          unify pre (firstn n l)
      end; reflexivity
    | reflexivity ].
Qed.

(** When every line the user types is nothing but white space (Unicode
    white space included), [main] ends normally after the caption prompt and
    the message "Текст не может быть пустым!": before them it has only
    printed, read the environment and prompted; no request is sent, no file
    written. *)
Theorem blank_caption_stops_before_network W (st : store unit) :
  (forall h, all_white (stdin_line W (trace st ++ h))) ->
  result (main W) st = Ok tt
  /\ exists pre,
       events (main W) st
       = pre ++ [EvInput "Введите текст для картинки кота: ";
                 EvPrint "❌ Ошибка: Текст не может быть пустым!"]
       /\ forallb is_local pre = true.
Proof.
  intros Hblank.
  assert (Hstrip : forall h, strip (stdin_line W (trace st ++ h)) = ""%string)
    by (intros h; apply strip_empty, Hblank).
  destruct (main_with_blank_caption W st Hstrip) as (pre & Hrun & Hpre).
  apply events_of_run in Hrun as (Hres & _ & _ & Hev).
  split; [exact Hres | ]. exists pre. split; assumption.
Qed.

Lemma blank_caption_stops_before_network_witness :
  result (main blank_line) start = Ok tt
  /\ exists pre,
       events (main blank_line) start
       = pre ++ [EvInput "Введите текст для картинки кота: ";
                 EvPrint "❌ Ошибка: Текст не может быть пустым!"]
       /\ forallb is_local pre = true.
Proof.
  apply (blank_caption_stops_before_network blank_line start).
  intros h. apply strip_empty. reflexivity.
Defined.

(** ** The requests of a backup *)







(** ** What a run appends *)

Section Appends.

Context {S : Type}.









Lemma appends_only_with_object {T A} q (o : T) (m : M T A) :
  appends_only q m -> appends_only q (with_object o m : M S A).
Proof.
  intros Hm st. destruct (Hm (mkStore o (trace st))) as (new & H & Hq).
  unfold final, with_object in *. destruct (m (mkStore o (trace st))) as [r st'].
  exists new. split; assumption.
Qed.

Lemma appends_only_weaken {A} (q q' : event -> bool) (m : M S A) :
  (forall e, q e = true -> q' e = true) -> appends_only q m -> appends_only q' m.
Proof.
  intros Hqq Hm st. destruct (Hm st) as (new & H & Hq). exists new. split; [exact H | ].
  rewrite forallb_forall in *. auto.
Qed.


End Appends.




Lemma main_except_prints W e (st : store unit) :
  exn_response e = None ->
  exists lines,
    main_except W e st = (Ok tt, mkStore (obj st) (trace st ++ lines))
    /\ forallb is_local lines = true.
Proof.
  intros He. unfold main_except, print, bind, emit. rewrite He. unfold ret.
  destruct (isinstance e ValueError); [ | destruct (isinstance e RequestException)];
    cbn [obj trace]; rewrite <- ?app_assoc; eexists; split; reflexivity.
Qed.

Lemma print_program_footer_prints {S} (st : store S) :
  exists lines,
    _print_program_footer st = (Ok tt, mkStore (obj st) (trace st ++ lines))
    /\ forallb is_local lines = true.
Proof.
  unfold _print_program_footer, print, bind, emit.
  cbn -[String.append times]. rewrite <- !app_assoc. cbn [app].
  eexists. split; reflexivity.
Qed.


(** ** What [main] writes *)

















(** The cases on runs: the happy run saves its record; on a disk that cannot
    be written the file is opened in vain and the refusal is printed; without
    services, and when the record has no size to add up, no file is opened. *)
Example runs_that_write_and_runs_that_do_not :
  List.length (filter is_write (events (main happy) start)) = 1%nat
  /\ last (events (main happy) start) EvNow = EvPrint (times "=" 50)
  /\ List.length (filter is_write (events (main read_only_disk) start)) = 1%nat
  /\ last (events (main read_only_disk) start) EvNow
     = EvPrint "Пожалуйста, проверьте подключение к интернету и правильность токена."
  /\ filter is_write (events (main offline) start) = []
  /\ filter is_write (events (main null_size) start) = [].
Proof. vm_compute. repeat split; reflexivity. Qed.
